(** * EDBOWebApiConnector: a shallow embedding of [edbo_connector/connector.py]

    The connector owns one [requests.Session], logs in with an OAuth password
    grant, renews the login when the session is older than
    [config.RELOGIN_AFTER] and offers [execute] for the remote methods.

    The embedding is a state-and-exception monad over the fields of the
    connector object and over a world made of a wall clock, a counter of the
    POST attempts and the trace of what the connector did to its surroundings
    (console messages, sleeps, requests).  The remote server is an oracle that
    answers the n-th POST attempt; time is rational and moves only while the
    connector sleeps or waits for the transport. *)

From Stdlib Require Import ZArith QArith String List Lia Lqa.
From stdpp Require Import gmap strings.

(** ** Python values that cross the interface *)

#[local] Set Warnings "-register-all".

(** What [response.json()] produces.  The members of an object are the items
    of the parsed [dict], so a key occurs once. *)
Inductive Json : Type :=
| JNull
| JBool (b : bool)
| JNum (n : Z)
| JStr (s : string)
| JList (l : list Json)
| JDict (d : list (string * Json)).

(** The exceptions that the code can meet.  [ConnectionError] is
    [requests.exceptions.ConnectionError], [RequestException] stands for the
    transport errors that are not connection errors; [ValueError] is what
    [response.json()] raises on a body that is not JSON. *)
Inductive Exn : Type :=
| ConnectionError
| RequestException
| ValueError
| AttributeError
| TypeError.

(** An HTTP response: [payload] is [Some j] when the body is the JSON
    document [j] and [None] when the body is not JSON. *)
Record Response : Type := {
  status_code : Z;
  payload : option Json
}.

(** The request that [Session.post] hands to the transport. *)
Record Request : Type := {
  req_url : string;
  req_data : gmap string string;
  req_json : option (gmap string string);
  req_headers : gmap string string
}.

Inductive Outcome : Type :=
| Replied (r : Response)
| Failed (e : Exn).

(** The value of an [execute] call: [None], a parsed body or the response
    object itself. *)
Inductive Ret : Type :=
| RNone
| RJson (j : Json)
| RResponse (r : Response).

(** ** Console messages *)

Inductive Color : Type := red | green.

(** The texts that the connector passes to [EDBOWebApiHelper.echo], one
    constructor per call site. *)
Inductive Message : Type :=
| msg_login                                (* line 97 *)
| msg_welcome (user : string)              (* line 127 *)
| msg_login_error (e : Json)               (* line 131 *)
| msg_login_failed                         (* line 138 *)
| msg_unreachable                          (* line 146 *)
| msg_logout                               (* line 153 *)
| msg_renew                                (* line 176 *)
| msg_executing (url : string)             (* line 189 *)
| msg_retry                                (* line 205 *)
| msg_done (status : option Z) (seconds : Q).  (* line 222 *)

(** The default of [.get('error', ...)] at line 131. *)
Definition unknown_error : Json := JStr "unknown error".

Inductive Event : Type :=
| Echo (m : Message) (color : option Color)
| Sleep (seconds : Q)
| Post (r : Request).

(** ** Configuration, connector object and world *)

(** The module [config], which the connector imports. *)
Record Config : Type := {
  EDBO_SERVER : string;
  EDBO_USER : string;
  EDBO_PASSWORD : string;
  EDBO_APPLICATION_KEY : string;
  USER_AGENT : string;
  CONNECTION_RETRIES : nat;
  RELOGIN_AFTER : Z;
  EXECUTION_TIMEOUT : Q
}.

(** [requests.Session]: the headers sent with every request and the mounted
    adapters, each with its prefix and its [max_retries].  Header names are
    kept as written; those of the connector differ by more than their
    case. *)
Record Session : Type := {
  headers : gmap string string;
  adapters : list (string * nat)
}.

(** The attributes of an [EDBOWebApiConnector]; [_session_start_time] does
    not exist before the first successful login. *)
Record Client : Type := {
  _status : option Z;
  _execution_time : Q;
  _is_logged_in : bool;
  _session : Session;
  _session_start_time : option Q
}.

Record World : Type := {
  now : Q;
  posts : nat;
  trace : list Event
}.

(** ** The monad *)

Inductive Result (A : Type) : Type :=
| Done (a : A) (c : Client) (w : World)
| Raised (e : Exn) (c : Client) (w : World)
| Terminated (c : Client) (w : World)
| OutOfFuel (c : Client) (w : World).

Arguments Done {A} a c w.
Arguments Raised {A} e c w.
Arguments Terminated {A} c w.
Arguments OutOfFuel {A} c w.

Definition M (A : Type) : Type := Client -> World -> Result A.

Definition ret {A} (a : A) : M A := fun c w => Done a c w.

Definition bind {A B} (k : A -> M B) (m : M A) : M B := fun c w =>
  match m c w with
  | Done a c' w' => k a c' w'
  | Raised e c' w' => Raised e c' w'
  | Terminated c' w' => Terminated c' w'
  | OutOfFuel c' w' => OutOfFuel c' w'
  end.

(** The sequencing of statements is written [x ← m; k] and [m;; k]. *)
#[global] Instance M_ret : MRet M := @ret.
#[global] Instance M_bind : MBind M := @bind.

Definition raise {A} (e : Exn) : M A := fun c w => Raised e c w.

Definition out_of_fuel {A} : M A := fun c w => OutOfFuel c w.

(** [try: body / except requests.exceptions.ConnectionError: handler] *)
Definition try_except_ConnectionError {A} (body handler : M A) : M A :=
  fun c w =>
    match body c w with
    | Raised ConnectionError c' w' => handler c' w'
    | r => r
    end.

(** The state in which a run stopped, however it stopped. *)
Definition final {A} (r : Result A) : Client * World :=
  match r with
  | Done _ c w | Raised _ c w | Terminated c w | OutOfFuel c w => (c, w)
  end.

(** The state after a run that came back to its caller, with a value or with
    an exception. *)
Definition came_back {A} (r : Result A) : option (Client * World) :=
  match r with
  | Done _ c w | Raised _ c w => Some (c, w)
  | Terminated _ _ | OutOfFuel _ _ => None
  end.

(** ** Attribute access *)

Definition get_status : M (option Z) := fun c w => Done (_status c) c w.

Definition get_execution_time : M Q := fun c w =>
  Done (_execution_time c) c w.

Definition set_status (st : Z) : M unit := fun c w =>
  Done tt {| _status := Some st;
             _execution_time := _execution_time c;
             _is_logged_in := _is_logged_in c;
             _session := _session c;
             _session_start_time := _session_start_time c |} w.

Definition set_execution_time (t : Q) : M unit := fun c w =>
  Done tt {| _status := _status c;
             _execution_time := t;
             _is_logged_in := _is_logged_in c;
             _session := _session c;
             _session_start_time := _session_start_time c |} w.

Definition set_is_logged_in (b : bool) : M unit := fun c w =>
  Done tt {| _status := _status c;
             _execution_time := _execution_time c;
             _is_logged_in := b;
             _session := _session c;
             _session_start_time := _session_start_time c |} w.

Definition set_session_start_time (t : Q) : M unit := fun c w =>
  Done tt {| _status := _status c;
             _execution_time := _execution_time c;
             _is_logged_in := _is_logged_in c;
             _session := _session c;
             _session_start_time := Some t |} w.

(** Reading an attribute that was never assigned raises [AttributeError]. *)
Definition get_session_start_time : M Q := fun c w =>
  match _session_start_time c with
  | Some t => Done t c w
  | None => Raised AttributeError c w
  end.

(** [self._session.headers.update(h)]: the entries of [h] win. *)
Definition session_headers_update (h : gmap string string) : M unit :=
  fun c w =>
    Done tt {| _status := _status c;
               _execution_time := _execution_time c;
               _is_logged_in := _is_logged_in c;
               _session := {| headers := h ∪ headers (_session c);
                              adapters := adapters (_session c) |};
               _session_start_time := _session_start_time c |} w.

(** The adapters of a fresh [requests.Session()]: its constructor mounts
    [HTTPAdapter()], whose [max_retries] is 0, for ['https://'] and then for
    ['http://']. *)
Definition library_adapters : list (string * nat) :=
  [("https://", 0%nat); ("http://", 0%nat)].

(** [Session.mount(prefix, adapter)] on the ordered dictionary of the
    adapters: the adapter is stored under its prefix, in place when the
    prefix is there and at the end when it is new, and then the prefixes
    shorter than it are moved behind, in their order. *)
Definition mount (prefix : string) (n : nat) (ads : list (string * nat))
  : list (string * nat) :=
  let stored :=
    if existsb (fun a => String.eqb (fst a) prefix) ads
    then map (fun a => if String.eqb (fst a) prefix then (prefix, n) else a)
             ads
    else ads ++ [(prefix, n)] in
  List.filter
    (fun a => negb (String.length (fst a) <? String.length prefix)%nat)
    stored
  ++ List.filter
       (fun a => (String.length (fst a) <? String.length prefix)%nat)
       stored.

(** [self._session.mount(prefix, HTTPAdapter(max_retries=n))] *)
Definition session_mount (prefix : string) (n : nat) : M unit :=
  fun c w =>
    Done tt {| _status := _status c;
               _execution_time := _execution_time c;
               _is_logged_in := _is_logged_in c;
               _session := {| headers := headers (_session c);
                              adapters := mount prefix n
                                            (adapters (_session c)) |};
               _session_start_time := _session_start_time c |} w.

(** ** The surroundings *)

Definition log (e : Event) (w : World) : World :=
  {| now := now w; posts := posts w; trace := trace w ++ [e] |}.

(** [time.time()] *)
Definition time_time : M Q := fun c w => Done (now w) c w.

(** [time.sleep(seconds)] *)
Definition time_sleep (seconds : Q) : M unit := fun c w =>
  Done tt c {| now := (now w + seconds)%Q;
               posts := posts w;
               trace := trace w ++ [Sleep seconds] |}.

(** Modelled from the spec: [EDBOWebApiHelper.echo] of the module [helper],
    which is not among the sources.  The spec calls it a message-display
    function that takes a text, an optional colour and an optional
    terminate-the-process flag: it shows the message and, when the flag is
    set, the process ends there. *)
Definition echo (m : Message) (color : option Color) (force_exit : bool)
  : M unit :=
  fun c w =>
    if force_exit then Terminated c (log (Echo m color) w)
    else Done tt c (log (Echo m color) w).

(** [int(x)] on a number: truncation towards zero. *)
Definition py_int (x : Q) : Z := Z.quot (Qnum x) (Zpos (Qden x)).

(** [response.json()] *)
Definition response_json (r : Response) : M Json :=
  match payload r with
  | Some j => ret j
  | None => raise ValueError
  end.

Fixpoint assoc (k : string) (d : list (string * Json)) : option Json :=
  match d with
  | [] => None
  | (k', v) :: d' => if String.eqb k k' then Some v else assoc k d'
  end.

(** [j.get(key, dflt)]: only a [dict] has the method. *)
Definition json_get (j : Json) (key : string) (dflt : Json) : M Json :=
  match j with
  | JDict d => ret (default dflt (assoc key d))
  | _ => raise AttributeError
  end.

(** ['prefix' + v]: [str + str], anything else is a [TypeError]. *)
Definition str_add (prefix : string) (v : Json) : M string :=
  match v with
  | JStr s => ret (prefix +:+ s)
  | _ => raise TypeError
  end.

(** ** The connector *)

Section Connector.

(** The configuration module and the server that answers the n-th POST
    attempt: how long the transport took and what came of it. *)
Variable cfg : Config.
Variable server : nat -> Request -> Q * Outcome.

(** The headers of a fresh [requests.Session()]. *)
Variable library_headers : gmap string string.

(** [url_prefix = '%s/data/EDEBOWebApi' % config.EDBO_SERVER] *)
Definition url_prefix : string := EDBO_SERVER cfg +:+ "/data/EDEBOWebApi".

Definition default_headers : gmap string string :=
  {[ "Origin" := EDBO_SERVER cfg;
     "Referer" := EDBO_SERVER cfg;
     "User-Agent" := USER_AGENT cfg ]}.

(** [requests.Session.post(url, data=None, json=None, **kwargs)]: the
    second and third positional arguments are [data] and [json]; headers
    are accepted by keyword only and are laid over the headers of the
    session.  The transport takes its time and then either replies or
    raises. *)
Definition session_post (url : string) (data : gmap string string)
    (json : option (gmap string string))
    (kw_headers : option (gmap string string)) : M Response :=
  fun c w =>
    let req := {| req_url := url;
                  req_data := data;
                  req_json := json;
                  req_headers :=
                    default ∅ kw_headers ∪ headers (_session c) |} in
    let w' := {| now := (now w + fst (server (posts w) req))%Q;
                 posts := S (posts w);
                 trace := trace w ++ [Post req] |} in
    match snd (server (posts w) req) with
    | Replied r => Done r c w'
    | Failed e => Raised e c w'
    end.

(** [__login], lines 94-149 *)
Definition login (username password : string) : M unit :=
  echo msg_login None false;;
  try_except_ConnectionError
    (response ← session_post (url_prefix +:+ "/oauth/token")
                  {[ "grant_type" := "password";
                     "username" := username;
                     "password" := password;
                     "app_key" := EDBO_APPLICATION_KEY cfg ]}
                  None (Some default_headers);
     if (status_code response =? 200)%Z then
       t ← time_time;
       set_session_start_time t;;
       set_status (status_code response);;
       set_is_logged_in true;;
       j ← response_json response;
       token ← json_get j "access_token" JNull;
       bearer ← str_add "Bearer " token;
       session_headers_update {[ "authorization" := bearer ]};;
       echo (msg_welcome (EDBO_USER cfg)) (Some green) false
     else if (status_code response =? 400)%Z then
       j ← response_json response;
       e ← json_get j "error" unknown_error;
       echo (msg_login_error e) (Some red) true
     else
       echo msg_login_failed (Some red) true)
    (echo msg_unreachable (Some red) true).

(** [__logout], lines 151-159, over the [execute] that it calls. *)
Definition logout_with (execute_logout : M Ret) : M unit :=
  echo msg_logout (Some red) false;;
  execute_logout;;
  st ← get_status;
  if decide (st = Some 204%Z) then set_is_logged_in false else mret tt.

(** One turn of the [while True] loop of [execute], lines 188-213: [Some]
    is the [break], [None] the [continue]. *)
Definition attempt (url : string) (data headers : option (gmap string string))
  : M (option (Q * Response * Q)) :=
  try_except_ConnectionError
    (echo (msg_executing url) None false;;
     execution_start ← time_time;
     response ← session_post (url_prefix +:+ "/api/" +:+ url)
                  (default {[ "" := "" ]} data)
                  (Some (default ∅ headers))
                  None;
     execution_end ← time_time;
     mret (Some (execution_start, response, execution_end)))
    (echo msg_retry (Some red) false;;
     mret None).

Fixpoint retry_loop (fuel : nat) (url : string)
    (data headers : option (gmap string string)) : M (Q * Response * Q) :=
  match fuel with
  | O => out_of_fuel
  | S fuel' =>
      r ← attempt url data headers;
      match r with
      | Some done => mret done
      | None => retry_loop fuel' url data headers
      end
  end.

(** [execute], lines 161-232.  The fuel bounds the depth of the calls
    through [__logout] and the number of turns of the loop; a run that
    uses it up ends as [OutOfFuel] in the state it has reached.  For the
    loop that stands for a call that does not come back; a nest of calls
    CPython cuts off itself, with [RecursionError], in such a state. *)
Fixpoint execute (fuel : nat) (url : string)
    (data headers : option (gmap string string)) (json_format : bool)
  : M Ret :=
  match fuel with
  | O => out_of_fuel
  | S fuel' =>
      t ← time_time;
      started ← get_session_start_time;
      (if (py_int (t - started) >? RELOGIN_AFTER cfg)%Z then
         echo msg_renew None false;;
         logout_with (execute fuel' "auth/logout" None None true);;
         login (EDBO_USER cfg) (EDBO_PASSWORD cfg)
       else mret tt);;
      time_sleep (EXECUTION_TIMEOUT cfg);;
      '(execution_start, response, execution_end) ←
        retry_loop fuel url data headers;
      set_execution_time (execution_end - execution_start);;
      set_status (status_code response);;
      st ← get_status;
      seconds ← get_execution_time;
      echo (msg_done st seconds) (Some green) false;;
      st ← get_status;
      if decide (st = Some 200%Z) then
        if json_format then
          j ← response_json response;
          mret (RJson j)
        else mret (RResponse response)
      else mret RNone
  end.

Definition logout (fuel : nat) : M unit :=
  logout_with (execute fuel "auth/logout" None None true).

(** The object before the body of [__init__] has run, with a fresh
    [requests.Session()]. *)
Definition fresh : Client :=
  {| _status := None;
     _execution_time := 0;
     _is_logged_in := false;
     _session := {| headers := library_headers;
                    adapters := library_adapters |};
     _session_start_time := None |}.

(** [__init__], lines 28-57 *)
Definition init (username password : string) : World -> Result unit :=
  (session_headers_update default_headers;;
   session_mount (EDBO_SERVER cfg) (CONNECTION_RETRIES cfg);;
   login username password) fresh.

(** [__del__], lines 59-64 *)
Definition del (fuel : nat) : M unit :=
  fun c w => if _is_logged_in c then logout fuel c w else Done tt c w.

(** ** Vocabulary of the properties *)

(** The test of line 175 on a connector that has logged in before. *)
Definition expired (c : Client) (w : World) : bool :=
  match _session_start_time c with
  | Some started => (py_int (now w - started) >? RELOGIN_AFTER cfg)%Z
  | None => false
  end.

(** The request of the login, lines 100-109. *)
Definition login_request (c : Client) (username password : string)
  : Request :=
  {| req_url := url_prefix +:+ "/oauth/token";
     req_data := {[ "grant_type" := "password";
                    "username" := username;
                    "password" := password;
                    "app_key" := EDBO_APPLICATION_KEY cfg ]};
     req_json := None;
     req_headers := default_headers ∪ headers (_session c) |}.

(** The request of an [execute] call, lines 195-199. *)
Definition api_request (c : Client) (url : string)
    (data hdrs : option (gmap string string)) : Request :=
  {| req_url := url_prefix +:+ "/api/" +:+ url;
     req_data := default {[ "" := "" ]} data;
     req_json := Some (default ∅ hdrs);
     req_headers := headers (_session c) |}.

(** How long the transport takes for the next attempt and what it
    answers. *)
Definition latency (w : World) (req : Request) : Q :=
  fst (server (posts w) req).

Definition answer (w : World) (req : Request) : Outcome :=
  snd (server (posts w) req).

(** The world after the transport has carried [req]. *)
Definition carried (req : Request) (w : World) : World :=
  {| now := (now w + latency w req)%Q;
     posts := S (posts w);
     trace := trace w ++ [Post req] |}.

(** The world after a turn of the loop that ended in a connection error. *)
Definition failed_turn (url : string) (req : Request) (w : World) : World :=
  log (Echo msg_retry (Some red))
      (carried req (log (Echo (msg_executing url) None) w)).

Fixpoint after_failures (k : nat) (url : string) (req : Request)
    (w : World) : World :=
  match k with
  | O => w
  | S k' => after_failures k' url req (failed_turn url req w)
  end.

(** What [k] failed turns add to the trace. *)
Fixpoint failed_turns (k : nat) (url : string) (req : Request)
  : list Event :=
  match k with
  | O => []
  | S k' => Echo (msg_executing url) None :: Post req
              :: Echo msg_retry (Some red) :: failed_turns k' url req
  end.

(** The world in which [execute] enters its loop. *)
Definition slept (w : World) : World :=
  {| now := (now w + EXECUTION_TIMEOUT cfg)%Q;
     posts := posts w;
     trace := trace w ++ [Sleep (EXECUTION_TIMEOUT cfg)] |}.

(** The next [k] attempts for [req] fail to connect and the one after
    them is answered with [r]. *)
Definition fails_then_replies (k : nat) (req : Request) (r : Response)
    (w : World) : Prop :=
  (forall i, (i < k)%nat ->
     snd (server (posts w + i) req) = Failed ConnectionError) /\
  snd (server (posts w + k) req) = Replied r.

(** The connector after [execute] has stored status and time. *)
Definition stored (st : Z) (seconds : Q) (c : Client) : Client :=
  {| _status := Some st;
     _execution_time := seconds;
     _is_logged_in := _is_logged_in c;
     _session := _session c;
     _session_start_time := _session_start_time c |}.

(** The requests in a trace, oldest first. *)
Definition requests (t : list Event) : list Request :=
  flat_map (fun e => match e with Post r => [r] | _ => [] end) t.

(** The messages with which an expired [execute] goes round: one renewal
    and one logout message for each level of the calls. *)
Fixpoint renewal_round (depth : nat) : list Event :=
  match depth with
  | O => []
  | S d => Echo msg_renew None :: Echo msg_logout (Some red)
             :: renewal_round d
  end.

Definition bearer_token (c : Client) : option string :=
  headers (_session c) !! "authorization".

(** The answers to a login after which line 131, 138 or 146 ends the
    process: a connection error, a status other than 200 and 400, and a
    status 400 whose body is a JSON object. *)
Definition refused (o : Outcome) : Prop :=
  match o with
  | Replied r =>
      status_code r <> 200%Z /\
      (status_code r = 400%Z -> exists d, payload r = Some (JDict d))
  | Failed e => e = ConnectionError
  end.

(** The object at the moment [__init__] calls [__login]. *)
Definition prepared : Client :=
  {| _status := None;
     _execution_time := 0;
     _is_logged_in := false;
     _session := {| headers := default_headers ∪ library_headers;
                    adapters := mount (EDBO_SERVER cfg)
                                      (CONNECTION_RETRIES cfg)
                                      library_adapters |};
     _session_start_time := None |}.

(** The connector after a login that was answered with 200 at time [t]. *)
Definition marked_logged_in (t : Q) (c : Client) : Client :=
  {| _status := Some 200%Z;
     _execution_time := _execution_time c;
     _is_logged_in := true;
     _session := _session c;
     _session_start_time := Some t |}.

(** How [execute] leaves once status and time are stored, lines 229-232:
    with the parsed body, with the error of [response.json()], with the
    response or with [None]. *)
Definition returned (r : Response) (json_format : bool) (c : Client)
    (w : World) : Result Ret :=
  if decide (status_code r = 200%Z) then
    if json_format then
      match payload r with
      | Some j => Done (RJson j) c w
      | None => Raised ValueError c w
      end
    else Done (RResponse r) c w
  else Done RNone c w.

(** What [execute] measures when it is answered at its (k+1)-th attempt:
    the clock after the answer less the clock before that attempt. *)
Definition measured_seconds (k : nat) (url : string) (req : Request)
    (w : World) : Q :=
  let w1 := after_failures k url req (slept w) in
  ((now w1 + latency w1 req) - now w1)%Q.

(** Connector and world after such an [execute]. *)
Definition answered_client (k : nat) (url : string) (req : Request)
    (r : Response) (c : Client) (w : World) : Client :=
  stored (status_code r) (measured_seconds k url req w) c.

Definition answered_world (k : nat) (url : string) (req : Request)
    (r : Response) (w : World) : World :=
  log (Echo (msg_done (Some (status_code r)) (measured_seconds k url req w))
            (Some green))
      (carried req
         (log (Echo (msg_executing url) None)
            (after_failures k url req (slept w)))).

(** The states of a connector in use: it is constructed, [execute] and
    [__del__] are called on it, and the clock moves on between the calls.
    A call that raised leaves a state as well, since the caller may go
    on. *)
Inductive reachable : Client -> World -> Prop :=
| reach_init (u p : string) (w : World) (c' : Client) (w' : World) :
    came_back (init u p w) = Some (c', w') ->
    reachable c' w'
| reach_execute (fuel : nat) (url : string)
    (data hdrs : option (gmap string string)) (json_format : bool)
    (c : Client) (w : World) (c' : Client) (w' : World) :
    reachable c w ->
    came_back (execute fuel url data hdrs json_format c w) = Some (c', w') ->
    reachable c' w'
| reach_del (fuel : nat) (c : Client) (w : World) (c' : Client)
    (w' : World) :
    reachable c w ->
    came_back (del fuel c w) = Some (c', w') ->
    reachable c' w'
| reach_wait (seconds : Q) (c : Client) (w : World) :
    reachable c w ->
    (0 <= seconds)%Q ->
    reachable c {| now := (now w + seconds)%Q;
                   posts := posts w;
                   trace := trace w |}.

(** What becomes of a connector in use from some state on: calls of
    [execute] and [__del__] end and time passes.  A call may end in any
    way: with a value, with an exception, or with its nest of calls cut
    off at the depth allowed, which is how CPython ends such a nest, with
    [RecursionError]; the state it leaves is the one to go on from. *)
Inductive later (c0 : Client) (w0 : World) : Client -> World -> Prop :=
| later_now : later c0 w0 c0 w0
| later_execute (fuel : nat) (url : string)
    (data hdrs : option (gmap string string)) (json_format : bool)
    (c : Client) (w : World) (c' : Client) (w' : World) :
    later c0 w0 c w ->
    final (execute fuel url data hdrs json_format c w) = (c', w') ->
    later c0 w0 c' w'
| later_del (fuel : nat) (c : Client) (w : World) (c' : Client)
    (w' : World) :
    later c0 w0 c w ->
    final (del fuel c w) = (c', w') ->
    later c0 w0 c' w'
| later_wait (seconds : Q) (c : Client) (w : World) :
    later c0 w0 c w ->
    (0 <= seconds)%Q ->
    later c0 w0 c {| now := (now w + seconds)%Q;
                     posts := posts w;
                     trace := trace w |}.

(** The exception with which lines 124 and 131 meet a body: the body is
    not JSON, the document is not an object, or (line 124 only, where the
    member is added to a [str]) the member is not a string. *)
Definition body_error (must_be_str : bool) (key : string)
    (body : option Json) : option Exn :=
  match body with
  | None => Some ValueError
  | Some (JDict d) =>
      if must_be_str then
        match default JNull (assoc key d) with
        | JStr _ => None
        | _ => Some TypeError
        end
      else None
  | Some _ => Some AttributeError
  end.

End Connector.

(** ** A run of the connector

    The scenario of the specification: the login is answered with 200 and the
    token [abc]; the server of the scenario then refuses one connection and
    answers the logout with 204. *)

Module Scenario.

Definition config : Config :=
  {| EDBO_SERVER := "https://edbo.example";
     EDBO_USER := "user";
     EDBO_PASSWORD := "secret";
     EDBO_APPLICATION_KEY := "key";
     USER_AGENT := "agent";
     CONNECTION_RETRIES := 3;
     RELOGIN_AFTER := 900;
     EXECUTION_TIMEOUT := 1 # 2 |}.

(** A server that follows a script, one entry per attempt, and answers 500
    once the script is over. *)
Definition scripted (script : list (Q * Outcome)) (n : nat) (req : Request)
  : Q * Outcome :=
  default (1%Q, Replied {| status_code := 500; payload := None |})
          (script !! n).

Definition token_reply : Response :=
  {| status_code := 200;
     payload := Some (JDict [("access_token", JStr "abc")]) |}.

Definition no_content : Response :=
  {| status_code := 204; payload := None |}.

Definition students : Response :=
  {| status_code := 200;
     payload := Some (JList [JStr "Ada"; JStr "Olena"]) |}.

Definition error_page : Response :=
  {| status_code := 200; payload := None |}.

Definition empty_object : Response :=
  {| status_code := 200; payload := Some (JDict []) |}.

Definition bad_request_page : Response :=
  {| status_code := 400; payload := None |}.

Definition invalid_grant : Response :=
  {| status_code := 400;
     payload := Some (JDict [("error", JStr "invalid_grant")]) |}.

(** Login, one refused connection, then the answer to a logout. *)
Definition server : nat -> Request -> Q * Outcome :=
  scripted [(2%Q, Replied token_reply);
            (1%Q, Failed ConnectionError);
            (3%Q, Replied no_content)].

(** Login, one refused connection, then a list of students. *)
Definition listing_server : nat -> Request -> Q * Outcome :=
  scripted [(2%Q, Replied token_reply);
            (1%Q, Failed ConnectionError);
            (3%Q, Replied students)].

(** Login, then a 200 whose body is not JSON. *)
Definition page_server : nat -> Request -> Q * Outcome :=
  scripted [(2%Q, Replied token_reply); (1%Q, Replied error_page)].

Definition boot : World := {| now := 0; posts := 0; trace := [] |}.

(** The connector and the world after [EDBOWebApiConnector()]; the three
    servers above answer the login alike. *)
Definition connected : Client * World :=
  final (init config server ∅ "user" "secret" boot).

(** The same connector sixteen minutes after the login. *)
Definition sixteen_minutes_later : World :=
  {| now := now (snd connected) + 960;
     posts := posts (snd connected);
     trace := trace (snd connected) |}.

(** The connector of the scenario after [__del__], whose logout is answered
    with 204 at the second attempt. *)
Definition torn_down : Client * World :=
  final (del config server 2 (fst connected) (snd connected)).

(** Login, one refused connection, then a transport error of another
    kind. *)
Definition broken_server : nat -> Request -> Q * Outcome :=
  scripted [(2%Q, Replied token_reply);
            (1%Q, Failed ConnectionError);
            (1%Q, Failed RequestException)].

(** Login, and from then on every connection is refused. *)
Definition dead_server (n : nat) (req : Request) : Q * Outcome :=
  match n with
  | O => (2%Q, Replied token_reply)
  | S _ => (1%Q, Failed ConnectionError)
  end.

(** A 200 without a token at the login, then the answer to a logout. *)
Definition careless_server : nat -> Request -> Q * Outcome :=
  scripted [(2%Q, Replied empty_object); (3%Q, Replied no_content)].

(** The world after an [execute] on the expired session has ended at
    depth 5, and a minute after that. *)
Definition after_failed_call : Client * World :=
  final (execute config server 5 "students/list" None None true
           (fst connected) sixteen_minutes_later).

Definition a_minute_on : World :=
  {| now := now (snd after_failed_call) + 60;
     posts := posts (snd after_failed_call);
     trace := trace (snd after_failed_call) |}.

(** The headers that a caller hands to [execute]. *)
Definition caller_headers : gmap string string :=
  {[ "X-Requested-With" := "XMLHttpRequest" ]}.

End Scenario.

(** ** Properties *)

Ltac unfold_monad :=
  unfold mbind, M_bind, bind, mret, M_ret, ret, raise, out_of_fuel,
    try_except_ConnectionError, echo, time_time, time_sleep,
    get_status, get_execution_time, set_status, set_execution_time,
    set_is_logged_in, set_session_start_time, get_session_start_time,
    session_headers_update, session_mount, response_json, json_get,
    str_add in *.

Ltac unfold_login :=
  unfold login, logout, logout_with, del, init, attempt in *.

Ltac unfold_requests :=
  unfold login_request, api_request, default_headers, url_prefix in *.

Arguments retry_loop : simpl never.

Lemma retry_loop_S (cfg : Config) (server : nat -> Request -> Q * Outcome)
    (fuel : nat) (url : string) (data hdrs : option (gmap string string)) :
  retry_loop cfg server (S fuel) url data hdrs
  = (r ← attempt cfg server url data hdrs;
     match r with
     | Some done => mret done
     | None => retry_loop cfg server fuel url data hdrs
     end).
Proof. reflexivity. Qed.

Section Properties.

Variable cfg : Config.
Variable server : nat -> Request -> Q * Outcome.
Variable library_headers : gmap string string.

#[local] Abbreviation url_prefix := (url_prefix cfg).
#[local] Abbreviation default_headers := (default_headers cfg).
#[local] Abbreviation session_post := (session_post server).
#[local] Abbreviation login := (login cfg server).
#[local] Abbreviation attempt := (attempt cfg server).
#[local] Abbreviation retry_loop := (retry_loop cfg server).
#[local] Abbreviation execute := (execute cfg server).
#[local] Abbreviation logout := (logout cfg server).
#[local] Abbreviation init := (init cfg server library_headers).
#[local] Abbreviation del := (del cfg server).
#[local] Abbreviation expired := (expired cfg).
#[local] Abbreviation login_request := (login_request cfg).
#[local] Abbreviation api_request := (api_request cfg).
#[local] Abbreviation latency := (latency server).
#[local] Abbreviation answer := (answer server).
#[local] Abbreviation carried := (carried server).
#[local] Abbreviation failed_turn := (failed_turn server).
#[local] Abbreviation after_failures := (after_failures server).
#[local] Abbreviation slept := (slept cfg).
#[local] Abbreviation fails_then_replies := (fails_then_replies server).
#[local] Abbreviation prepared := (prepared cfg library_headers).
#[local] Abbreviation reachable := (reachable cfg server library_headers).
#[local] Abbreviation measured_seconds := (measured_seconds cfg server).
#[local] Abbreviation answered_client := (answered_client cfg server).
#[local] Abbreviation answered_world := (answered_world cfg server).

(** *** The transport *)

Lemma requests_app (t1 t2 : list Event) :
  requests (t1 ++ t2) = requests t1 ++ requests t2.
Proof. unfold requests. apply flat_map_app. Qed.

Lemma session_post_api (c : Client) (w : World) (url : string)
    (data hdrs : option (gmap string string)) :
  session_post (url_prefix +:+ "/api/" +:+ url)
               (default {[ "" := "" ]} data) (Some (default ∅ hdrs)) None
               c w
  = match answer w (api_request c url data hdrs) with
    | Replied r => Done r c (carried (api_request c url data hdrs) w)
    | Failed e => Raised e c (carried (api_request c url data hdrs) w)
    end.
Proof.
  unfold session_post, answer, carried, latency, api_request. simpl.
  rewrite (left_id_L ∅ (∪)). reflexivity.
Qed.

Lemma session_post_login (c : Client) (w : World) (u p : string) :
  session_post (url_prefix +:+ "/oauth/token")
               {[ "grant_type" := "password"; "username" := u;
                  "password" := p;
                  "app_key" := EDBO_APPLICATION_KEY cfg ]}
               None (Some (default_headers)) c w
  = match answer w (login_request c u p) with
    | Replied r => Done r c (carried (login_request c u p) w)
    | Failed e => Raised e c (carried (login_request c u p) w)
    end.
Proof. reflexivity. Qed.

(** *** The retry loop *)

Lemma attempt_failed (c : Client) (w : World) (url : string)
    (data hdrs : option (gmap string string)) :
  snd (server (posts w) (api_request c url data hdrs))
    = Failed ConnectionError ->
  attempt url data hdrs c w
  = Done None c (failed_turn url (api_request c url data hdrs) w).
Proof.
  intros H. unfold attempt. unfold_monad.
  rewrite session_post_api. unfold answer. simpl. rewrite H. reflexivity.
Qed.

Lemma attempt_replied (c : Client) (w : World) (url : string)
    (data hdrs : option (gmap string string)) (r : Response) :
  snd (server (posts w) (api_request c url data hdrs)) = Replied r ->
  attempt url data hdrs c w
  = Done (Some (now w, r,
                (now w + fst (server (posts w)
                                (api_request c url data hdrs)))%Q))
         c
         (carried (api_request c url data hdrs)
                  (log (Echo (msg_executing url) None) w)).
Proof.
  intros H. unfold attempt. unfold_monad.
  rewrite session_post_api. unfold answer. simpl. rewrite H. reflexivity.
Qed.

Lemma posts_after_failures (k : nat) (url : string) (req : Request)
    (w : World) :
  posts (after_failures k url req w) = (posts w + k)%nat.
Proof.
  revert w. induction k as [|k IH]; intros w; simpl.
  - lia.
  - rewrite IH. simpl. lia.
Qed.

(** After [k] failed turns the loop finds the reply at its next turn and
    leaves with the two readings of the clock that frame that turn. *)
Lemma retry_loop_replied (k fuel : nat) (c : Client) (w : World)
    (url : string) (data hdrs : option (gmap string string))
    (r : Response) :
  (k < fuel)%nat ->
  fails_then_replies k (api_request c url data hdrs) r w ->
  retry_loop fuel url data hdrs c w
  = Done (now (after_failures k url (api_request c url data hdrs) w), r,
          (now (after_failures k url (api_request c url data hdrs) w)
           + latency (after_failures k url (api_request c url data hdrs) w)
                     (api_request c url data hdrs))%Q)
         c
         (carried (api_request c url data hdrs)
            (log (Echo (msg_executing url) None)
               (after_failures k url (api_request c url data hdrs) w))).
Proof.
  revert fuel w. induction k as [|k IH]; intros fuel w Hfuel [Hfail Hok].
  - destruct fuel as [|fuel]; [lia|]. rewrite retry_loop_S.
    unfold mbind, M_bind, bind.
    rewrite (attempt_replied c w url data hdrs r).
    + reflexivity.
    + rewrite <- Hok. f_equal. f_equal. lia.
  - destruct fuel as [|fuel]; [lia|]. rewrite retry_loop_S.
    unfold mbind, M_bind, bind.
    rewrite attempt_failed.
    + apply IH; [lia|]. split.
      * intros i Hi. simpl. rewrite <- (Hfail (S i)) by lia.
        f_equal. f_equal. lia.
      * simpl. rewrite <- Hok. f_equal. f_equal. lia.
    + rewrite <- (Hfail 0%nat) by lia. f_equal. f_equal. lia.
Qed.

(** *** Login *)

Lemma default_headers_no_token : default_headers !! "authorization" = None.
Proof. unfold_requests. by simplify_map_eq. Qed.

Lemma init_login (u p : string) (w : World) :
  init u p w = login u p prepared w.
Proof. reflexivity. Qed.

(** A login that is answered with 200: the clock is read, status and flag
    are set, and only then the body is looked at. *)
Lemma login_200 (c : Client) (w : World) (u p : string) (r : Response) :
  snd (server (posts w) (login_request c u p)) = Replied r ->
  status_code r = 200%Z ->
  let w1 := carried (login_request c u p) (log (Echo msg_login None) w) in
  let c1 := marked_logged_in (now w1) c in
  login u p c w
  = match payload r with
    | None => Raised ValueError c1 w1
    | Some (JDict d) =>
        match default JNull (assoc "access_token" d) with
        | JStr tok =>
            Done tt
              {| _status := Some 200%Z;
                 _execution_time := _execution_time c;
                 _is_logged_in := true;
                 _session :=
                   {| headers := {[ "authorization" := "Bearer " +:+ tok ]}
                                 ∪ headers (_session c);
                      adapters := adapters (_session c) |};
                 _session_start_time := Some (now w1) |}
              (log (Echo (msg_welcome (EDBO_USER cfg)) (Some green)) w1)
        | _ => Raised TypeError c1 w1
        end
    | Some _ => Raised AttributeError c1 w1
    end.
Proof.
  intros Hsrv H200. unfold_login. unfold_monad.
  rewrite session_post_login. unfold answer. simpl posts. rewrite Hsrv.
  rewrite H200. simpl.
  destruct (payload r) as [[| | | | |d]|]; unfold_monad; simpl;
    try reflexivity.
  destruct (default JNull (assoc "access_token" d)); reflexivity.
Qed.

(** C2, as the code has it: a login that is answered with 200 and with a
    JSON object whose [access_token] is a string returns with the connector
    logged in, with [Bearer <token>] under [authorization] in the headers of
    the session, hence in the headers of every later request of [execute]
    and of [__login], and with the session start time equal to the clock at
    the arrival of the response. *)
Theorem login_ok_attaches_token (c : Client) (w : World) (u p : string)
    (r : Response) (d : list (string * Json)) (tok : string) :
  snd (server (posts w) (login_request c u p)) = Replied r ->
  status_code r = 200%Z ->
  payload r = Some (JDict d) ->
  assoc "access_token" d = Some (JStr tok) ->
  exists c' w',
    login u p c w = Done tt c' w' /\
    _is_logged_in c' = true /\
    bearer_token c' = Some ("Bearer " +:+ tok) /\
    (forall url data hdrs,
       req_headers (api_request c' url data hdrs) !! "authorization"
       = Some ("Bearer " +:+ tok)) /\
    (forall u' p',
       req_headers (login_request c' u' p') !! "authorization"
       = Some ("Bearer " +:+ tok)) /\
    _session_start_time c'
      = Some (now w + fst (server (posts w) (login_request c u p)))%Q /\
    now w' = (now w + fst (server (posts w) (login_request c u p)))%Q /\
    _status c' = Some 200%Z.
Proof.
  intros Hsrv H200 Hbody Htok.
  rewrite (login_200 c w u p r Hsrv H200), Hbody, Htok. simpl.
  do 2 eexists. split; [reflexivity|].
  assert (Hlook : ({[ "authorization" := "Bearer " +:+ tok ]}
                   ∪ headers (_session c) : gmap string string)
                  !! "authorization" = Some ("Bearer " +:+ tok)).
  { apply lookup_union_Some_l. apply lookup_singleton_eq. }
  split; [reflexivity|]. split; [exact Hlook|].
  split; [intros; exact Hlook|].
  split; [|repeat split].
  intros u' p'. simpl. rewrite lookup_union_r; [exact Hlook|].
  apply default_headers_no_token.
Qed.

(** C10: a login that is answered with 200 and with a JSON object without
    [access_token] raises [TypeError] at line 124, where the header is
    built; by then the connector is marked as logged in, the status 200 and
    the session start time are stored, and the headers of the session are
    as they were. *)
Theorem login_without_token_raises (c : Client) (w : World) (u p : string)
    (r : Response) (d : list (string * Json)) :
  snd (server (posts w) (login_request c u p)) = Replied r ->
  status_code r = 200%Z ->
  payload r = Some (JDict d) ->
  assoc "access_token" d = None ->
  exists c' w',
    login u p c w = Raised TypeError c' w' /\
    _is_logged_in c' = true /\
    _session_start_time c'
      = Some (now w + fst (server (posts w) (login_request c u p)))%Q /\
    _status c' = Some 200%Z /\
    _session c' = _session c.
Proof.
  intros Hsrv H200 Hbody Htok.
  rewrite (login_200 c w u p r Hsrv H200), Hbody, Htok. simpl.
  do 2 eexists. repeat split.
Qed.

(** A login that the server refuses ends the process and leaves the
    connector as it was. *)
Lemma login_refused (c : Client) (w : World) (u p : string) :
  refused (snd (server (posts w) (login_request c u p))) ->
  exists w', login u p c w = Terminated c w'.
Proof.
  intros Href. unfold_login. unfold_monad.
  rewrite session_post_login. unfold answer. simpl posts.
  destruct (snd (server (posts w) (login_request c u p))) as [r|e];
    simpl in Href.
  - destruct Href as [Hne Hbody].
    destruct (status_code r =? 200)%Z eqn:E200; [lia|].
    destruct (status_code r =? 400)%Z eqn:E400.
    + destruct Hbody as [d Hd]; [lia|]. rewrite Hd. simpl.
      eexists. reflexivity.
    + eexists. reflexivity.
  - subst e. eexists. reflexivity.
Qed.

(** Where the code does as C6 says: a login that is answered with a status
    other than 200 and 400, or with 400 and a JSON object, or that meets a
    connection error, ends the process with the connector untouched, so
    that [_is_logged_in] keeps its value: [False], when it was [False]. *)
Theorem login_refused_terminates (c : Client) (w : World) (u p : string) :
  refused (snd (server (posts w) (login_request c u p))) ->
  exists c' w',
    login u p c w = Terminated c' w' /\
    c' = c /\
    (_is_logged_in c = false -> _is_logged_in c' = false).
Proof.
  intros Href. destruct (login_refused c w u p Href) as [w' Hrun].
  exists c, w'. repeat split; [exact Hrun | tauto].
Qed.

(** At construction [_is_logged_in] is [False] when [__login] is called. *)
Lemma init_refused (w : World) (u p : string) :
  refused (snd (server (posts w) (login_request prepared u p))) ->
  exists c' w', init u p w = Terminated c' w' /\ _is_logged_in c' = false.
Proof.
  intros Href. rewrite init_login.
  destruct (login_refused prepared w u p Href) as [w' Hrun].
  exists prepared, w'. split; [exact Hrun | reflexivity].
Qed.

(** *** A session within its age *)

(** The whole of an [execute] call on a session that has not expired, when
    [k] connections are refused before the server answers with [r]. *)
Lemma execute_replied (k fuel : nat) (c : Client) (w : World)
    (url : string) (data hdrs : option (gmap string string))
    (json_format : bool) (r : Response) :
  is_Some (_session_start_time c) ->
  expired c w = false ->
  (k < fuel)%nat ->
  fails_then_replies k (api_request c url data hdrs) r w ->
  execute fuel url data hdrs json_format c w
  = returned r json_format
      (answered_client k url (api_request c url data hdrs) r c w)
      (answered_world k url (api_request c url data hdrs) r w).
Proof.
  intros [started Hstart] Hexp Hfuel Hsrv.
  destruct fuel as [|fuel]; [lia|].
  unfold expired in Hexp. rewrite Hstart in Hexp.
  simpl. unfold_monad. rewrite Hstart, Hexp.
  fold (slept w).
  rewrite (retry_loop_replied k (S fuel) c (slept w) url data hdrs r
             Hfuel Hsrv).
  unfold returned, answered_client, answered_world, measured_seconds,
    stored. simpl.
  destruct (decide (Some (status_code r) = Some 200%Z)) as [E|E];
    destruct (decide (status_code r = 200%Z)) as [E'|E'];
    try congruence.
  destruct json_format; [|reflexivity].
  destruct (payload r); reflexivity.
Qed.

Lemma came_back_returned (r : Response) (json_format : bool) (c : Client)
    (w : World) :
  came_back (returned r json_format c w) = Some (c, w).
Proof.
  unfold returned. destruct (decide _); [|reflexivity].
  destruct json_format; [|reflexivity]. destruct (payload r); reflexivity.
Qed.

Lemma final_returned (r : Response) (json_format : bool) (c : Client)
    (w : World) :
  final (returned r json_format c w) = (c, w).
Proof.
  unfold returned. destruct (decide _); [|reflexivity].
  destruct json_format; [|reflexivity]. destruct (payload r); reflexivity.
Qed.

Lemma trace_after_failures (k : nat) (url : string) (req : Request)
    (w : World) :
  trace (after_failures k url req w) = trace w ++ failed_turns k url req.
Proof.
  revert w. induction k as [|k IH]; intros w; simpl.
  - symmetry. apply app_nil_r.
  - rewrite IH. simpl. rewrite <- !app_assoc. reflexivity.
Qed.

Lemma requests_failed_turns (k : nat) (url : string) (req : Request) :
  requests (failed_turns k url req) = replicate k req.
Proof. induction k as [|k IH]; simpl; [reflexivity | by rewrite IH]. Qed.

Lemma trace_answered_world (k : nat) (url : string) (req : Request)
    (r : Response) (w : World) :
  trace (answered_world k url req r w)
  = trace w
    ++ Sleep (EXECUTION_TIMEOUT cfg)
    :: failed_turns k url req
    ++ [Echo (msg_executing url) None; Post req;
        Echo (msg_done (Some (status_code r)) (measured_seconds k url req w))
             (Some green)].
Proof.
  unfold answered_world. simpl.
  rewrite trace_after_failures. simpl.
  rewrite <- !app_assoc. reflexivity.
Qed.

(** C4: when [k] connections in a row are refused and the next attempt is
    answered, [execute] comes back after exactly [k + 1] attempts, all of
    them for the same request, and the execution time that it stores is the
    time that the transport took for the answered attempt alone: the
    difference of the two clock readings that frame it. *)
Theorem execute_retries_until_replied (k fuel : nat) (c : Client)
    (w : World) (url : string) (data hdrs : option (gmap string string))
    (json_format : bool) (r : Response) :
  is_Some (_session_start_time c) ->
  expired c w = false ->
  (k < fuel)%nat ->
  fails_then_replies k (api_request c url data hdrs) r w ->
  exists c' w',
    came_back (execute fuel url data hdrs json_format c w) = Some (c', w') /\
    posts w' = (posts w + k + 1)%nat /\
    requests (trace w')
      = requests (trace w)
        ++ replicate (S k) (api_request c url data hdrs) /\
    (_execution_time c'
     == fst (server (posts w + k) (api_request c url data hdrs)))%Q.
Proof.
  intros Hstart Hexp Hfuel Hsrv.
  rewrite (execute_replied k fuel c w url data hdrs json_format r)
    by assumption.
  do 2 eexists. split; [apply came_back_returned|].
  split; [|split].
  - unfold answered_world. simpl. rewrite posts_after_failures. simpl. lia.
  - rewrite trace_answered_world, requests_app.
    rewrite (replicate_S_end k). f_equal.
    change (requests (Sleep (EXECUTION_TIMEOUT cfg) :: ?t))
      with (requests t).
    rewrite requests_app, requests_failed_turns. reflexivity.
  - unfold answered_client, measured_seconds, stored, latency. simpl.
    rewrite posts_after_failures. simpl. ring.
Qed.

(** C3, as the code has it: an [execute] that is answered with [r] stores
    the status of [r] and then, when that status is 200 and [json_format]
    is set, returns the parsed body if the body is JSON and lets the error
    of [response.json()] reach the caller if it is not; when the status is
    200 and [json_format] is not set it returns the response; with any other
    status it returns [None] and raises nothing. *)
Theorem execute_return_value (k fuel : nat) (c : Client) (w : World)
    (url : string) (data hdrs : option (gmap string string))
    (json_format : bool) (r : Response) :
  is_Some (_session_start_time c) ->
  expired c w = false ->
  (k < fuel)%nat ->
  fails_then_replies k (api_request c url data hdrs) r w ->
  exists c' w',
    final (execute fuel url data hdrs json_format c w) = (c', w') /\
    _status c' = Some (status_code r) /\
    (status_code r = 200%Z -> json_format = true ->
     forall j, payload r = Some j ->
       execute fuel url data hdrs json_format c w = Done (RJson j) c' w') /\
    (status_code r = 200%Z -> json_format = true -> payload r = None ->
       execute fuel url data hdrs json_format c w = Raised ValueError c' w') /\
    (status_code r = 200%Z -> json_format = false ->
       execute fuel url data hdrs json_format c w = Done (RResponse r) c' w') /\
    (status_code r <> 200%Z ->
       execute fuel url data hdrs json_format c w = Done RNone c' w').
Proof.
  intros Hstart Hexp Hfuel Hsrv.
  rewrite (execute_replied k fuel c w url data hdrs json_format r)
    by assumption.
  do 2 eexists. split; [apply final_returned|].
  split; [reflexivity|]. unfold returned.
  repeat split.
  - intros E -> j ->. destruct (decide _); [reflexivity | contradiction].
  - intros E -> ->. destruct (decide _); [reflexivity | contradiction].
  - intros E ->. destruct (decide _); [reflexivity | contradiction].
  - intros E. destruct (decide _); [contradiction | reflexivity].
Qed.

(** C5, as the code has it: an [execute] on a session within its age sleeps
    [EXECUTION_TIMEOUT] and then posts, once per attempt, to
    [url_prefix/api/url] with the form data of the caller or [{'': ''}];
    the [headers] of the caller are the third positional argument of
    [Session.post], which is [json]: they travel as the JSON document of
    the request and its headers are those of the session alone. *)
Theorem execute_posts_headers_as_json (k fuel : nat) (c : Client)
    (w : World) (url : string) (data hdrs : option (gmap string string))
    (json_format : bool) (r : Response) :
  is_Some (_session_start_time c) ->
  expired c w = false ->
  (k < fuel)%nat ->
  fails_then_replies k (api_request c url data hdrs) r w ->
  exists c' w' req,
    came_back (execute fuel url data hdrs json_format c w) = Some (c', w') /\
    trace w'
      = trace w
        ++ Sleep (EXECUTION_TIMEOUT cfg)
        :: failed_turns k url req
        ++ [Echo (msg_executing url) None; Post req;
            Echo (msg_done (_status c') (_execution_time c')) (Some green)] /\
    req = {| req_url := url_prefix +:+ "/api/" +:+ url;
             req_data := default {[ "" := "" ]} data;
             req_json := Some (default ∅ hdrs);
             req_headers := headers (_session c) |}.
Proof.
  intros Hstart Hexp Hfuel Hsrv.
  rewrite (execute_replied k fuel c w url data hdrs json_format r)
    by assumption.
  do 3 eexists. split; [apply came_back_returned|].
  split; [apply trace_answered_world | reflexivity].
Qed.

(** *** A session past its age *)

Lemma requests_renewal_round (depth : nat) :
  requests (renewal_round depth) = [].
Proof. induction depth as [|d IH]; [reflexivity | exact IH]. Qed.

(** The test of line 175 is the first statement of [execute], and
    [__logout] calls [execute]: nothing between the two tests assigns
    [_session_start_time] or lets the clock go back, so on an expired
    session every level of the calls finds the session expired again and
    goes one level deeper. *)
Lemma execute_expired (fuel : nat) (url : string)
    (data hdrs : option (gmap string string)) (json_format : bool)
    (c : Client) (w : World) :
  expired c w = true ->
  execute fuel url data hdrs json_format c w
  = OutOfFuel c {| now := now w; posts := posts w;
                   trace := trace w ++ renewal_round fuel |}.
Proof.
  revert url data hdrs json_format w.
  induction fuel as [|fuel IH]; intros url data hdrs json_format w Hexp.
  - simpl. unfold out_of_fuel. rewrite app_nil_r. destruct w; reflexivity.
  - unfold expired in Hexp.
    destruct (_session_start_time c) as [started|] eqn:Hstart;
      [|discriminate].
    simpl. unfold logout_with. unfold_monad. rewrite Hstart, Hexp.
    rewrite IH.
    + simpl. rewrite <- !app_assoc. reflexivity.
    + unfold expired. rewrite Hstart. exact Hexp.
Qed.

(** C1, the behaviour of the code where the claim asks for one logout and one
    login before the request: when [execute] is called on a session older
    than [RELOGIN_AFTER], whatever the depth allowed to the calls, the call
    does not come back and no request at all is sent, neither the logout
    nor the login nor the one that was asked for; only the renewal and
    logout messages are shown, once per level. *)
Theorem execute_expired_sends_nothing (fuel : nat) (url : string)
    (data hdrs : option (gmap string string)) (json_format : bool)
    (c : Client) (w : World) :
  expired c w = true ->
  exists w',
    execute fuel url data hdrs json_format c w = OutOfFuel c w' /\
    trace w' = trace w ++ renewal_round fuel /\
    requests (trace w') = requests (trace w) /\
    posts w' = posts w /\
    now w' = now w.
Proof.
  intros Hexp. eexists. split; [apply execute_expired; exact Hexp|].
  simpl. repeat split.
  rewrite requests_app, requests_renewal_round. apply app_nil_r.
Qed.

(** *** What the calls leave alone *)

Lemma attempt_client (c : Client) (w : World) (url : string)
    (data hdrs : option (gmap string string)) :
  fst (final (attempt url data hdrs c w)) = c.
Proof.
  unfold_login. unfold_monad. rewrite session_post_api.
  match goal with
  | |- context [answer ?a ?b] =>
      destruct (answer a b) as [r|[]]; reflexivity
  end.
Qed.

Lemma retry_loop_client (fuel : nat) (c : Client) (w : World)
    (url : string) (data hdrs : option (gmap string string)) :
  fst (final (retry_loop fuel url data hdrs c w)) = c.
Proof.
  revert w. induction fuel as [|fuel IH]; intros w; [reflexivity|].
  rewrite retry_loop_S. unfold mbind, M_bind, bind.
  pose proof (attempt_client c w url data hdrs) as Hc.
  destruct (attempt url data hdrs c w) as [[x|] c1 w1|e c1 w1|c1 w1|c1 w1];
    simpl in Hc; subst c1; try reflexivity.
  apply IH.
Qed.

(** [execute] changes nothing but the stored status and time: on a session
    past its age it does not come back, and within its age it does not
    log in or out. *)
Lemma execute_login_state (fuel : nat) (url : string)
    (data hdrs : option (gmap string string)) (json_format : bool)
    (c : Client) (w : World) :
  let c' := fst (final (execute fuel url data hdrs json_format c w)) in
  _is_logged_in c' = _is_logged_in c /\
  _session c' = _session c /\
  _session_start_time c' = _session_start_time c.
Proof.
  destruct (expired c w) eqn:Hexp.
  { rewrite execute_expired by exact Hexp. simpl. tauto. }
  destruct fuel as [|fuel]; [simpl; tauto|].
  unfold expired in Hexp. simpl. unfold_monad.
  destruct (_session_start_time c) as [started|] eqn:Hstart;
    [|simpl; tauto].
  rewrite Hexp.
  pose proof (retry_loop_client (S fuel) c (slept w) url data hdrs) as Hc.
  fold (slept w).
  destruct (retry_loop (S fuel) url data hdrs c (slept w))
    as [[[t0 r] t1] c1 w1|e c1 w1|c1 w1|c1 w1];
    simpl in Hc; subst c1; simpl; try tauto.
  destruct (decide _); [|simpl; tauto].
  destruct json_format; [|simpl; tauto].
  unfold_monad. destruct (payload r); simpl; tauto.
Qed.

(** [__logout] on top of that may clear the flag and does nothing else to
    the login state. *)
Lemma logout_login_state (fuel : nat) (c : Client) (w : World) :
  let c' := fst (final (logout fuel c w)) in
  (_is_logged_in c' = _is_logged_in c \/ _is_logged_in c' = false) /\
  _session c' = _session c /\
  _session_start_time c' = _session_start_time c.
Proof.
  unfold_login. unfold_monad.
  pose proof (execute_login_state fuel "auth/logout" None None true c
                (log (Echo msg_logout (Some red)) w)) as Hc.
  destruct (execute fuel "auth/logout" None None true c
              (log (Echo msg_logout (Some red)) w))
    as [x c1 w1|e c1 w1|c1 w1|c1 w1]; simpl in Hc; simpl;
    try tauto.
  destruct (decide _); simpl; tauto.
Qed.

Lemma login_execution_time (c : Client) (w : World) (u p : string) :
  _execution_time (fst (final (login u p c w))) = _execution_time c.
Proof.
  unfold_login. unfold_monad. rewrite session_post_login.
  destruct (answer _ _) as [r|[]]; try reflexivity. simpl.
  destruct (status_code r =? 200)%Z.
  - destruct (payload r) as [[| | | | |d]|]; unfold_monad; simpl;
      try reflexivity.
    destruct (default JNull (assoc "access_token" d)); reflexivity.
  - destruct (status_code r =? 400)%Z; [|reflexivity].
    destruct (payload r) as [[| | | | |d]|]; reflexivity.
Qed.

(** The [execute] of [__logout], when it is answered. *)
Lemma logout_replied (k fuel : nat) (c : Client) (w : World)
    (r : Response) :
  is_Some (_session_start_time c) ->
  expired c w = false ->
  (k < fuel)%nat ->
  fails_then_replies k (api_request c "auth/logout" None None) r w ->
  let req := api_request c "auth/logout" None None in
  let c1 := answered_client k "auth/logout" req r c
              (log (Echo msg_logout (Some red)) w) in
  let w1 := answered_world k "auth/logout" req r
              (log (Echo msg_logout (Some red)) w) in
  logout fuel c w
  = if decide (status_code r = 200%Z) then
      match payload r with
      | Some _ => Done tt c1 w1
      | None => Raised ValueError c1 w1
      end
    else if decide (status_code r = 204%Z) then
      Done tt {| _status := _status c1;
                 _execution_time := _execution_time c1;
                 _is_logged_in := false;
                 _session := _session c1;
                 _session_start_time := _session_start_time c1 |} w1
    else Done tt c1 w1.
Proof.
  intros Hstart Hexp Hfuel Hsrv. unfold_login. unfold_monad.
  rewrite (execute_replied k fuel c (log (Echo msg_logout (Some red)) w)
             "auth/logout" None None true r Hstart Hexp Hfuel Hsrv).
  unfold returned.
  destruct (decide (status_code r = 200%Z)) as [E|E].
  - destruct (payload r); [|reflexivity]. simpl.
    destruct (decide _) as [E'|E']; [|reflexivity].
    injection E' as E'. lia.
  - simpl. destruct (decide (Some (status_code r) = Some 204%Z)) as [E'|E'];
      destruct (decide (status_code r = 204%Z)) as [E''|E''];
      try reflexivity; congruence.
Qed.

(** In whatever way a logout ends, it has changed [_is_logged_in] only if it
    returned with the status 204 stored. *)
Lemma logout_flag (fuel : nat) (c : Client) (w : World) :
  match logout fuel c w with
  | Done _ c' _ =>
      _is_logged_in c'
      = if decide (_status c' = Some 204%Z) then false else _is_logged_in c
  | Raised _ c' _ | Terminated c' _ | OutOfFuel c' _ =>
      _is_logged_in c' = _is_logged_in c
  end.
Proof.
  unfold_login. unfold_monad.
  pose proof (execute_login_state fuel "auth/logout" None None true c
                (log (Echo msg_logout (Some red)) w)) as Hc.
  destruct (execute fuel "auth/logout" None None true c
              (log (Echo msg_logout (Some red)) w))
    as [x c1 w1|e c1 w1|c1 w1|c1 w1]; simpl in Hc; simpl;
    try tauto.
  destruct (decide (_status c1 = Some 204%Z)) as [E|E]; simpl.
  - destruct (decide _); [reflexivity | contradiction].
  - destruct (decide _); [contradiction | tauto].
Qed.

(** C9: a logout whose request is answered with [r] leaves [_is_logged_in]
    false when the status of [r] is 204 and as it was otherwise; no logout
    at all, answered or not, turns a false [_is_logged_in] into true; and
    every logout, in whatever way it ends, leaves [_is_logged_in] as it was
    unless it returns with the status 204 stored, and false then: one that
    raises, that ends the process or that does not come back has not
    touched it. *)
Theorem logout_clears_exactly_on_204 (fuel : nat) (c : Client) (w : World) :
  (forall (k : nat) (r : Response),
     is_Some (_session_start_time c) ->
     expired c w = false ->
     (k < fuel)%nat ->
     fails_then_replies k (api_request c "auth/logout" None None) r w ->
     exists c' w',
       came_back (logout fuel c w) = Some (c', w') /\
       _status c' = Some (status_code r) /\
       (status_code r = 204%Z -> _is_logged_in c' = false) /\
       (status_code r <> 204%Z -> _is_logged_in c' = _is_logged_in c)) /\
  (_is_logged_in c = false ->
   _is_logged_in (fst (final (logout fuel c w))) = false) /\
  match logout fuel c w with
  | Done _ c' _ =>
      _is_logged_in c'
      = if decide (_status c' = Some 204%Z) then false else _is_logged_in c
  | Raised _ c' _ | Terminated c' _ | OutOfFuel c' _ =>
      _is_logged_in c' = _is_logged_in c
  end.
Proof.
  split; [|split; [|apply logout_flag]].
  - intros k r Hstart Hexp Hfuel Hsrv.
    rewrite (logout_replied k fuel c w r Hstart Hexp Hfuel Hsrv).
    destruct (decide (status_code r = 200%Z)) as [E|E].
    + destruct (payload r); do 2 eexists;
        (split; [reflexivity|]); (split; [reflexivity|]);
        split; intros; try lia; reflexivity.
    + destruct (decide (status_code r = 204%Z)) as [E'|E'];
        do 2 eexists; (split; [reflexivity|]); (split; [reflexivity|]);
        split; intros; try contradiction; reflexivity.
  - intros Hout. destruct (logout_login_state fuel c w) as ([H|H] & _).
    + rewrite H. exact Hout.
    + exact H.
Qed.

(** C8, as the code has it: after an [execute] that was answered, also the
    one of [__logout], the stored status is that of the answer and the
    stored time is the time of the answered attempt; a login stores the
    status 200 when it succeeds and never stores a time, so that after it
    the stored time is still that of the last [execute], or the initial
    0. *)
Theorem last_status_and_time (fuel : nat) (c : Client) (w : World) :
  (forall (k : nat) (url : string) (data hdrs : option (gmap string string))
          (json_format : bool) (r : Response),
     is_Some (_session_start_time c) ->
     expired c w = false ->
     (k < fuel)%nat ->
     fails_then_replies k (api_request c url data hdrs) r w ->
     exists c' w',
       came_back (execute fuel url data hdrs json_format c w)
         = Some (c', w') /\
       _status c' = Some (status_code r) /\
       (_execution_time c'
        == fst (server (posts w + k) (api_request c url data hdrs)))%Q) /\
  (forall (k : nat) (r : Response),
     is_Some (_session_start_time c) ->
     expired c w = false ->
     (k < fuel)%nat ->
     fails_then_replies k (api_request c "auth/logout" None None) r w ->
     exists c' w',
       came_back (logout fuel c w) = Some (c', w') /\
       _status c' = Some (status_code r) /\
       (_execution_time c'
        == fst (server (posts w + k)
                  (api_request c "auth/logout" None None)))%Q) /\
  (forall (u p : string),
     _execution_time (fst (final (login u p c w))) = _execution_time c /\
     forall x c' w',
       login u p c w = Done x c' w' -> _status c' = Some 200%Z).
Proof.
  assert (Hsec : forall k url req w0,
            posts w0 = posts w ->
            (measured_seconds k url req w0
             == fst (server (posts w + k) req))%Q).
  { intros k url req w0 Hp. unfold measured_seconds, latency. simpl.
    rewrite posts_after_failures. simpl. rewrite Hp. ring. }
  split; [|split].
  - intros k url data hdrs json_format r Hstart Hexp Hfuel Hsrv.
    rewrite (execute_replied k fuel c w url data hdrs json_format r)
      by assumption.
    do 2 eexists. split; [apply came_back_returned|].
    split; [reflexivity|]. apply Hsec. reflexivity.
  - intros k r Hstart Hexp Hfuel Hsrv.
    rewrite (logout_replied k fuel c w r Hstart Hexp Hfuel Hsrv).
    destruct (decide (status_code r = 200%Z));
      [destruct (payload r)|destruct (decide (status_code r = 204%Z))];
      do 2 eexists; (split; [reflexivity|]); (split; [reflexivity|]);
      apply Hsec; reflexivity.
  - intros u p. split; [apply login_execution_time|].
    intros x c' w' Hrun. revert Hrun. unfold_login. unfold_monad.
    rewrite session_post_login.
    destruct (answer _ _) as [r|[]]; try discriminate. simpl.
    destruct (status_code r =? 200)%Z eqn:E200.
    + destruct (payload r) as [[| | | | |d]|]; unfold_monad; simpl;
        try discriminate.
      destruct (default JNull (assoc "access_token" d)); try discriminate.
      intros [= <- <- <-]. simpl. f_equal. lia.
    + destruct (status_code r =? 400)%Z; [|discriminate].
      destruct (payload r) as [[| | | | |d]|]; discriminate.
Qed.

(** *** The bearer token *)

Lemma came_back_final {A} (r : Result A) (x : Client * World) :
  came_back r = Some x -> final r = x.
Proof. destruct r; simpl; congruence. Qed.

(** A login either leaves the connector as it was or records the session
    start time; the headers of the session stay or gain the token. *)
Lemma login_final (c : Client) (w : World) (u p : string) :
  let c' := fst (final (login u p c w)) in
  c' = c \/
  (is_Some (_session_start_time c') /\
   (_session c' = _session c \/
    exists bearer,
      headers (_session c')
      = {[ "authorization" := bearer ]} ∪ headers (_session c))).
Proof.
  unfold_login. unfold_monad. rewrite session_post_login.
  destruct (answer _ _) as [r|[]]; try (left; reflexivity). simpl.
  destruct (status_code r =? 200)%Z.
  - right.
    destruct (payload r) as [[| | | | |d]|]; unfold_monad; simpl;
      try (split; [eexists; reflexivity | left; reflexivity]).
    destruct (default JNull (assoc "access_token" d)); simpl;
      try (split; [eexists; reflexivity | left; reflexivity]).
    split; [eexists; reflexivity | right; eexists; reflexivity].
  - left. destruct (status_code r =? 400)%Z; [|reflexivity].
    destruct (payload r) as [[| | | | |d]|]; reflexivity.
Qed.

Lemma bearer_token_prepared :
  library_headers !! "authorization" = None ->
  bearer_token prepared = None.
Proof.
  intros Hlib. unfold bearer_token. simpl.
  apply lookup_union_None. split; [apply default_headers_no_token | exact Hlib].
Qed.

(** C7, as the code has it: a connector in use has a bearer token in the
    headers of its session only after a login was answered with 200, that
    is, only with a session start time; and nothing takes the token out
    again: [execute], [__logout], also when it is answered with 204 and
    clears [_is_logged_in], and [__login] leave a token that is there. *)
Theorem bearer_token_stays :
  library_headers !! "authorization" = None ->
  (forall c w,
     reachable c w ->
     is_Some (bearer_token c) -> is_Some (_session_start_time c)) /\
  (forall fuel url data hdrs json_format c w,
     bearer_token (fst (final (execute fuel url data hdrs json_format c w)))
     = bearer_token c) /\
  (forall fuel c w,
     bearer_token (fst (final (logout fuel c w))) = bearer_token c) /\
  (forall u p c w,
     is_Some (bearer_token c) ->
     is_Some (bearer_token (fst (final (login u p c w))))).
Proof.
  intros Hlib.
  assert (Hexec : forall fuel url data hdrs json_format c w,
            bearer_token
              (fst (final (execute fuel url data hdrs json_format c w)))
            = bearer_token c).
  { intros. unfold bearer_token.
    destruct (execute_login_state fuel url data hdrs json_format c w)
      as (_ & -> & _). reflexivity. }
  assert (Hout : forall fuel c w,
            bearer_token (fst (final (logout fuel c w))) = bearer_token c).
  { intros. unfold bearer_token.
    destruct (logout_login_state fuel c w) as (_ & -> & _). reflexivity. }
  split; [|split; [exact Hexec|split; [exact Hout|]]].
  - intros c w Hreach. induction Hreach as
      [u p w c' w' Hrun
      |fuel url data hdrs json_format c w c' w' Hreach IH Hrun
      |fuel c w c' w' Hreach IH Hrun
      |seconds c w Hreach IH Hpos]; intros Htok.
    + apply came_back_final in Hrun. rewrite init_login in Hrun.
      pose proof (login_final prepared w u p) as Hfin.
      rewrite Hrun in Hfin. simpl in Hfin.
      destruct Hfin as [->|[Hs _]]; [|exact Hs].
      rewrite (bearer_token_prepared Hlib) in Htok.
      destruct Htok; discriminate.
    + apply came_back_final in Hrun.
      pose proof (Hexec fuel url data hdrs json_format c w) as Hb.
      destruct (execute_login_state fuel url data hdrs json_format c w)
        as (_ & _ & Hs).
      rewrite Hrun in Hb, Hs. simpl in Hb, Hs.
      rewrite Hs. apply IH. rewrite <- Hb. exact Htok.
    + apply came_back_final in Hrun. revert Hrun. unfold_login.
      destruct (_is_logged_in c).
      * intros Hrun. pose proof (Hout fuel c w) as Hb.
        destruct (logout_login_state fuel c w) as (_ & _ & Hs).
        unfold_login. rewrite Hrun in Hb, Hs. simpl in Hb, Hs.
        rewrite Hs. apply IH. rewrite <- Hb. exact Htok.
      * simpl. intros [= <- <-]. apply IH. exact Htok.
    + apply IH. exact Htok.
  - intros u p c w Htok. unfold bearer_token in *.
    destruct (login_final c w u p) as [->|[_ [->|[bearer ->]]]];
      try exact Htok.
    exists bearer. apply lookup_union_Some_l. apply lookup_singleton_eq.
Qed.

(** *** Transport errors that are not connection errors *)

#[local] Abbreviation later := (later cfg server).

Lemma attempt_raised (c : Client) (w : World) (url : string)
    (data hdrs : option (gmap string string)) (e : Exn) :
  snd (server (posts w) (api_request c url data hdrs)) = Failed e ->
  e <> ConnectionError ->
  attempt url data hdrs c w
  = Raised e c (carried (api_request c url data hdrs)
                  (log (Echo (msg_executing url) None) w)).
Proof.
  intros H Hne. unfold_login. unfold_monad.
  rewrite session_post_api. unfold answer. simpl. rewrite H.
  destruct e; try reflexivity. contradiction.
Qed.

Lemma retry_loop_raised (k fuel : nat) (c : Client) (w : World)
    (url : string) (data hdrs : option (gmap string string)) (e : Exn) :
  (k < fuel)%nat ->
  (forall i, (i < k)%nat ->
     snd (server (posts w + i) (api_request c url data hdrs))
     = Failed ConnectionError) ->
  snd (server (posts w + k) (api_request c url data hdrs)) = Failed e ->
  e <> ConnectionError ->
  retry_loop fuel url data hdrs c w
  = Raised e c
      (carried (api_request c url data hdrs)
         (log (Echo (msg_executing url) None)
            (after_failures k url (api_request c url data hdrs) w))).
Proof.
  revert fuel w. induction k as [|k IH]; intros fuel w Hfuel Hfail He Hne.
  - destruct fuel as [|fuel]; [lia|]. rewrite retry_loop_S.
    unfold mbind, M_bind, bind.
    rewrite (attempt_raised c w url data hdrs e); [reflexivity| |exact Hne].
    rewrite <- He. f_equal. f_equal. lia.
  - destruct fuel as [|fuel]; [lia|]. rewrite retry_loop_S.
    unfold mbind, M_bind, bind.
    rewrite attempt_failed.
    + apply IH; [lia| | |exact Hne].
      * intros i Hi. simpl. rewrite <- (Hfail (S i)) by lia.
        f_equal. f_equal. lia.
      * simpl. rewrite <- He. f_equal. f_equal. lia.
    + rewrite <- (Hfail 0%nat) by lia. f_equal. f_equal. lia.
Qed.

Lemma retry_loop_exhausted (fuel : nat) (c : Client) (w : World)
    (url : string) (data hdrs : option (gmap string string)) :
  (forall i, (i < fuel)%nat ->
     snd (server (posts w + i) (api_request c url data hdrs))
     = Failed ConnectionError) ->
  retry_loop fuel url data hdrs c w
  = OutOfFuel c (after_failures fuel url (api_request c url data hdrs) w).
Proof.
  revert w. induction fuel as [|fuel IH]; intros w Hfail; [reflexivity|].
  rewrite retry_loop_S. unfold mbind, M_bind, bind.
  rewrite attempt_failed.
  - apply IH. intros i Hi. simpl. rewrite <- (Hfail (S i)) by lia.
    f_equal. f_equal. lia.
  - rewrite <- (Hfail 0%nat) by lia. f_equal. f_equal. lia.
Qed.

(** X1: [execute] retries connection errors only.  When [k] connections
    are refused and the next attempt fails with another transport error,
    that error reaches the caller after [k + 1] attempts; the connector
    is untouched, so that status and execution time are still those of
    the call before. *)
Theorem execute_other_error_propagates (k fuel : nat) (c : Client)
    (w : World) (url : string) (data hdrs : option (gmap string string))
    (json_format : bool) (e : Exn) :
  is_Some (_session_start_time c) ->
  expired c w = false ->
  (k < fuel)%nat ->
  (forall i, (i < k)%nat ->
     snd (server (posts w + i) (api_request c url data hdrs))
     = Failed ConnectionError) ->
  snd (server (posts w + k) (api_request c url data hdrs)) = Failed e ->
  e <> ConnectionError ->
  exists w',
    execute fuel url data hdrs json_format c w = Raised e c w' /\
    posts w' = (posts w + k + 1)%nat /\
    requests (trace w')
      = requests (trace w)
        ++ replicate (S k) (api_request c url data hdrs).
Proof.
  intros [started Hstart] Hexp Hfuel Hfail He Hne.
  destruct fuel as [|fuel]; [lia|].
  unfold expired in Hexp. rewrite Hstart in Hexp.
  simpl. unfold_monad. rewrite Hstart, Hexp. fold (slept w).
  rewrite (retry_loop_raised k (S fuel) c (slept w) url data hdrs e
             Hfuel Hfail He Hne).
  eexists. split; [reflexivity|]. split.
  - simpl. rewrite posts_after_failures. simpl. lia.
  - rewrite replicate_cons_app. simpl trace.
    rewrite !requests_app, trace_after_failures, requests_app.
    simpl trace. rewrite requests_app, requests_failed_turns.
    simpl. rewrite !app_nil_r, <- !app_assoc. reflexivity.
Qed.

(** X2: the loop of [execute] has no bound of its own.  Against a server
    that refuses every connection the call does not come back: whatever
    number of turns is allowed, all of them are used for the same request,
    and status and execution time are not stored. *)
Theorem execute_retries_without_end (fuel : nat) (c : Client) (w : World)
    (url : string) (data hdrs : option (gmap string string))
    (json_format : bool) :
  is_Some (_session_start_time c) ->
  expired c w = false ->
  (forall i,
     snd (server (posts w + i) (api_request c url data hdrs))
     = Failed ConnectionError) ->
  exists w',
    execute fuel url data hdrs json_format c w = OutOfFuel c w' /\
    posts w' = (posts w + fuel)%nat /\
    requests (trace w')
      = requests (trace w) ++ replicate fuel (api_request c url data hdrs).
Proof.
  intros [started Hstart] Hexp Hfail.
  destruct fuel as [|fuel].
  { exists w. simpl. rewrite app_nil_r. repeat split. lia. }
  unfold expired in Hexp. rewrite Hstart in Hexp.
  simpl. unfold_monad. rewrite Hstart, Hexp. fold (slept w).
  rewrite (retry_loop_exhausted (S fuel) c (slept w) url data hdrs)
    by (intros i _; apply Hfail).
  eexists. split; [reflexivity|]. split.
  - rewrite posts_after_failures. reflexivity.
  - rewrite trace_after_failures, requests_app, requests_failed_turns.
    simpl trace. rewrite requests_app. simpl. rewrite app_nil_r.
    reflexivity.
Qed.

(** *** The age of a session *)

Lemma py_int_le (x y : Q) : (x <= y)%Q -> (py_int x <= py_int y)%Z.
Proof.
  destruct x as [a b], y as [c d]. unfold py_int, Qle. simpl. intros H.
  rewrite <- (Z.quot_mul_cancel_r a (Z.pos b) (Z.pos d)) by lia.
  rewrite <- (Z.quot_mul_cancel_r c (Z.pos d) (Z.pos b)) by lia.
  rewrite (Z.mul_comm (Z.pos d) (Z.pos b)).
  apply Z.quot_le_mono; lia.
Qed.

Lemma py_int_gt (x : Q) (n : Z) :
  (0 <= n)%Z ->
  (py_int x >? n)%Z = true <-> (inject_Z (n + 1) <= x)%Q.
Proof.
  intros Hn. rewrite Z.gtb_ltb, Z.ltb_lt.
  destruct x as [a b]. unfold py_int, Qle. simpl.
  destruct (Z_lt_le_dec a 0) as [Ha|Ha].
  - assert (a ÷ Z.pos b <= 0)%Z.
    { change 0%Z with (0 ÷ Z.pos b)%Z. apply Z.quot_le_mono; lia. }
    split; [lia | nia].
  - rewrite Z.quot_div_nonneg by lia.
    pose proof (Z.mul_div_le a (Z.pos b) ltac:(lia)).
    pose proof (Z.mul_succ_div_gt a (Z.pos b) ltac:(lia)).
    split; intros; nia.
Qed.

(** X3: because line 175 truncates the age to whole seconds before it
    compares, a session counts as expired exactly when it is at least
    [RELOGIN_AFTER + 1] seconds old; an age of [RELOGIN_AFTER] seconds and
    a fraction is still within the limit. *)
Theorem expired_from_next_whole_second (c : Client) (w : World)
    (started : Q) :
  (0 <= RELOGIN_AFTER cfg)%Z ->
  _session_start_time c = Some started ->
  expired c w = true
  <-> (inject_Z (RELOGIN_AFTER cfg + 1) <= now w - started)%Q.
Proof.
  intros Hpos Hstart. unfold expired. rewrite Hstart.
  apply py_int_gt. exact Hpos.
Qed.

Lemma expired_wait (c : Client) (w : World) (seconds : Q) :
  expired c w = true ->
  (0 <= seconds)%Q ->
  expired c {| now := (now w + seconds)%Q;
               posts := posts w;
               trace := trace w |} = true.
Proof.
  unfold expired. destruct (_session_start_time c) as [started|];
    [|discriminate].
  simpl. rewrite !Z.gtb_ltb, !Z.ltb_lt. intros Hexp Hpos.
  eapply Z.lt_le_trans; [exact Hexp|].
  apply py_int_le. lra.
Qed.

Lemma del_logged_out (fuel : nat) (c : Client) (w : World) :
  _is_logged_in c = false -> del fuel c w = Done tt c w.
Proof. intros H. unfold_login. rewrite H. reflexivity. Qed.

Lemma del_expired (fuel : nat) (c : Client) (w : World) :
  _is_logged_in c = true ->
  expired c w = true ->
  del fuel c w
  = OutOfFuel c {| now := now w; posts := posts w;
                   trace := (trace w ++ [Echo msg_logout (Some red)])
                            ++ renewal_round fuel |}.
Proof.
  intros Hin Hexp. unfold_login. rewrite Hin. unfold_login.
  unfold_monad. simpl.
  rewrite execute_expired by exact Hexp. reflexivity.
Qed.

(** X4: [__del__] of a connector that is logged in and whose session has
    expired does not log out.  At whatever depth the nest of calls that it
    enters is cut off, the call has not returned normally, no request has
    been sent, and the connector is as it was, still marked as logged
    in. *)
Theorem del_expired_sends_nothing (fuel : nat) (c : Client) (w : World) :
  _is_logged_in c = true ->
  expired c w = true ->
  exists w',
    final (del fuel c w) = (c, w') /\
    (forall x c'' w'', del fuel c w <> Done x c'' w'') /\
    requests (trace w') = requests (trace w) /\
    posts w' = posts w.
Proof.
  intros Hin Hexp. rewrite (del_expired fuel c w Hin Hexp).
  eexists. split; [reflexivity|]. split; [discriminate|].
  simpl. split; [|reflexivity].
  rewrite !requests_app, requests_renewal_round. simpl.
  rewrite !app_nil_r. reflexivity.
Qed.

(** X5: nothing renews an expired session.  From the moment the session
    has expired, whatever calls of [execute] and [__del__] are made and
    however they end, and however much time passes, the connector stays
    exactly as it was, its session stays expired and not one request is
    sent. *)
Theorem expired_for_good (c0 : Client) (w0 : World) (c : Client)
    (w : World) :
  expired c0 w0 = true ->
  later c0 w0 c w ->
  c = c0 /\ expired c w = true /\ posts w = posts w0 /\
  requests (trace w) = requests (trace w0).
Proof.
  intros Hexp Hlater.
  induction Hlater as
    [|fuel url data hdrs json_format c w c' w' Hlater IH Hrun
     |fuel c w c' w' Hlater IH Hrun
     |seconds c w Hlater IH Hpos].
  - repeat split. exact Hexp.
  - destruct IH as (-> & Hexp' & Hposts & Hreq).
    rewrite execute_expired in Hrun by exact Hexp'.
    simpl in Hrun. injection Hrun as <- <-.
    split; [reflexivity|]. split; [exact Hexp'|]. split; [exact Hposts|].
    simpl. rewrite requests_app, requests_renewal_round, app_nil_r.
    exact Hreq.
  - destruct IH as (-> & Hexp' & Hposts & Hreq).
    destruct (_is_logged_in c0) eqn:Hin.
    + rewrite (del_expired fuel c0 w Hin Hexp') in Hrun.
      simpl in Hrun. injection Hrun as <- <-.
      split; [reflexivity|]. split; [exact Hexp'|]. split; [exact Hposts|].
      simpl. rewrite !requests_app, requests_renewal_round. simpl.
      rewrite !app_nil_r. exact Hreq.
    + rewrite (del_logged_out fuel c0 w Hin) in Hrun.
      simpl in Hrun. injection Hrun as <- <-.
      repeat split; assumption.
  - destruct IH as (-> & Hexp' & Hposts & Hreq).
    split; [reflexivity|]. split; [|split; assumption].
    apply expired_wait; assumption.
Qed.

(** X6: [execute] never logs in or out and never renews anything: however
    a call ends, [_is_logged_in], the session with its headers and
    adapters, and the session start time are what they were before the
    call. *)
Theorem execute_only_stores_status_and_time (fuel : nat) (url : string)
    (data hdrs : option (gmap string string)) (json_format : bool)
    (c : Client) (w : World) :
  _is_logged_in (fst (final (execute fuel url data hdrs json_format c w)))
    = _is_logged_in c /\
  _session (fst (final (execute fuel url data hdrs json_format c w)))
    = _session c /\
  _session_start_time
    (fst (final (execute fuel url data hdrs json_format c w)))
    = _session_start_time c.
Proof. exact (execute_login_state fuel url data hdrs json_format c w). Qed.

(** *** Construction and teardown *)

Lemma del_logged_in (fuel : nat) (c : Client) (w : World) :
  _is_logged_in c = true -> del fuel c w = logout fuel c w.
Proof. intros H. unfold_login. rewrite H. reflexivity. Qed.

Lemma login_not_200 (c : Client) (w : World) (u p : string)
    (r : Response) :
  snd (server (posts w) (login_request c u p)) = Replied r ->
  status_code r <> 200%Z ->
  login u p c w
  = if decide (status_code r = 400%Z) then
      match body_error false "error" (payload r) with
      | Some e =>
          Raised e c
            (carried (login_request c u p) (log (Echo msg_login None) w))
      | None =>
          Terminated c
            (log (Echo (msg_login_error
                          (match payload r with
                           | Some (JDict d) =>
                               default unknown_error (assoc "error" d)
                           | _ => unknown_error
                           end)) (Some red))
               (carried (login_request c u p)
                  (log (Echo msg_login None) w)))
      end
    else
      Terminated c
        (log (Echo msg_login_failed (Some red))
           (carried (login_request c u p) (log (Echo msg_login None) w))).
Proof.
  intros Hsrv Hne. unfold_login. unfold_monad.
  rewrite session_post_login. unfold answer. simpl posts. rewrite Hsrv.
  simpl. destruct (status_code r =? 200)%Z eqn:E200; [lia|].
  destruct (decide (status_code r = 400%Z)) as [E|E].
  - rewrite E. simpl.
    destruct (payload r) as [[| | | | |d]|]; reflexivity.
  - destruct (status_code r =? 400)%Z eqn:E400; [lia|]. reflexivity.
Qed.

Lemma login_failed (c : Client) (w : World) (u p : string) (e : Exn) :
  snd (server (posts w) (login_request c u p)) = Failed e ->
  e <> ConnectionError ->
  login u p c w
  = Raised e c (carried (login_request c u p) (log (Echo msg_login None) w)).
Proof.
  intros Hsrv Hne. unfold_login. unfold_monad.
  rewrite session_post_login. unfold answer. simpl posts. rewrite Hsrv.
  destruct e; try reflexivity. contradiction.
Qed.

(** The only way in which a login returns. *)
Lemma login_done (c : Client) (w : World) (u p : string) (c' : Client)
    (w' : World) :
  login u p c w = Done tt c' w' ->
  exists r d tok,
    snd (server (posts w) (login_request c u p)) = Replied r /\
    status_code r = 200%Z /\
    payload r = Some (JDict d) /\
    assoc "access_token" d = Some (JStr tok) /\
    c' = {| _status := Some 200%Z;
            _execution_time := _execution_time c;
            _is_logged_in := true;
            _session :=
              {| headers := {[ "authorization" := "Bearer " +:+ tok ]}
                            ∪ headers (_session c);
                 adapters := adapters (_session c) |};
            _session_start_time :=
              Some (now w + fst (server (posts w) (login_request c u p)))%Q
         |} /\
    w' = log (Echo (msg_welcome (EDBO_USER cfg)) (Some green))
           (carried (login_request c u p) (log (Echo msg_login None) w)).
Proof.
  intros Hrun.
  destruct (snd (server (posts w) (login_request c u p))) as [r|e] eqn:Hsrv.
  - destruct (decide (status_code r = 200%Z)) as [E|E].
    + rewrite (login_200 c w u p r Hsrv E) in Hrun.
      destruct (payload r) as [[| | | | |d]|] eqn:Hbody; try discriminate.
      destruct (assoc "access_token" d) as [[| | |tok| |]|] eqn:Htok;
        try discriminate.
      simpl in Hrun. injection Hrun as <- <-.
      exists r, d, tok. repeat split; assumption.
    + rewrite (login_not_200 c w u p r Hsrv E) in Hrun.
      destruct (decide _); [|discriminate].
      destruct (body_error _ _ _); discriminate.
  - assert (He : e = ConnectionError \/ e <> ConnectionError)
      by (destruct e; (left; reflexivity) || (right; discriminate)).
    destruct He as [->|Hne].
    + assert (Href : refused (snd (server (posts w) (login_request c u p))))
        by (rewrite Hsrv; reflexivity).
      destruct (login_refused c w u p Href) as [w1 H1]. congruence.
    + rewrite (login_failed c w u p e Hsrv Hne) in Hrun. discriminate.
Qed.



(** X8: after a construction that returned, every request of [execute]
    goes out with [Origin] and [Referer] set to [EDBO_SERVER], with
    [User-Agent] set to [USER_AGENT] in place of the one of the library,
    and with a bearer token under [authorization]. *)
Theorem constructed_requests_carry_identity (u p : string) (w : World)
    (c' : Client) (w' : World) (url : string)
    (data hdrs : option (gmap string string)) :
  init u p w = Done tt c' w' ->
  req_headers (api_request c' url data hdrs) !! "Origin"
    = Some (EDBO_SERVER cfg) /\
  req_headers (api_request c' url data hdrs) !! "Referer"
    = Some (EDBO_SERVER cfg) /\
  req_headers (api_request c' url data hdrs) !! "User-Agent"
    = Some (USER_AGENT cfg) /\
  exists tok,
    req_headers (api_request c' url data hdrs) !! "authorization"
    = Some ("Bearer " +:+ tok).
Proof.
  rewrite init_login. intros Hrun.
  destruct (login_done prepared w u p c' w' Hrun)
    as (r & d & tok & _ & _ & _ & _ & -> & _).
  simpl.
  assert (Hdef : default_headers !! "Origin" = Some (EDBO_SERVER cfg) /\
                 default_headers !! "Referer" = Some (EDBO_SERVER cfg) /\
                 default_headers !! "User-Agent" = Some (USER_AGENT cfg)).
  { unfold_requests. repeat split; by simplify_map_eq. }
  destruct Hdef as (Ho & Hr & Hu).
  repeat split; [| | |exists tok].
  - rewrite lookup_union_r by (by apply lookup_singleton_ne).
    apply lookup_union_Some_l. exact Ho.
  - rewrite lookup_union_r by (by apply lookup_singleton_ne).
    apply lookup_union_Some_l. exact Hr.
  - rewrite lookup_union_r by (by apply lookup_singleton_ne).
    apply lookup_union_Some_l. exact Hu.
  - apply lookup_union_Some_l. apply lookup_singleton_eq.
Qed.

Lemma login_200_bad_body (c : Client) (w : World) (u p : string)
    (r : Response) (e : Exn) :
  snd (server (posts w) (login_request c u p)) = Replied r ->
  status_code r = 200%Z ->
  body_error true "access_token" (payload r) = Some e ->
  exists w',
    login u p c w
    = Raised e
        (marked_logged_in
           (now w + fst (server (posts w) (login_request c u p)))%Q c)
        w' /\
    requests (trace w') = requests (trace w) ++ [login_request c u p].
Proof.
  intros Hsrv H200 Hbody.
  rewrite (login_200 c w u p r Hsrv H200).
  assert (Hreq : requests
            (trace (carried (login_request c u p)
                      (log (Echo msg_login None) w)))
          = requests (trace w) ++ [login_request c u p]).
  { simpl. rewrite !requests_app. simpl. rewrite app_nil_r. reflexivity. }
  unfold body_error in Hbody.
  destruct (payload r) as [[| | | | |d]|];
    try (injection Hbody as <-; eexists; split; [reflexivity|exact Hreq]).
  destruct (default JNull (assoc "access_token" d));
    try discriminate;
    injection Hbody as <-; eexists; split; try reflexivity; exact Hreq.
Qed.

(** X9: a login that is answered with 200 and with a body that is not a
    JSON object with a string [access_token] raises: [ValueError] when the
    body is not JSON, [AttributeError] when the document is not an object,
    [TypeError] when the member is absent, null or not a string.  In each
    case the connector is already marked as logged in, with status 200 and
    session start time stored, and its session is as it was. *)
Theorem login_200_bad_body_raises (c : Client) (w : World) (u p : string)
    (r : Response) (e : Exn) :
  snd (server (posts w) (login_request c u p)) = Replied r ->
  status_code r = 200%Z ->
  body_error true "access_token" (payload r) = Some e ->
  exists w',
    login u p c w
    = Raised e
        (marked_logged_in
           (now w + fst (server (posts w) (login_request c u p)))%Q c)
        w' /\
    requests (trace w') = requests (trace w) ++ [login_request c u p].
Proof. exact (login_200_bad_body c w u p r e). Qed.

(** X10: a login that is answered with 400 and with a body that is not a
    JSON object does not end the process: line 131 raises [ValueError] for
    a body that is not JSON and [AttributeError] for a document that is not
    an object, and the connector is as it was. *)
Theorem login_400_bad_body_raises (c : Client) (w : World) (u p : string)
    (r : Response) (e : Exn) :
  snd (server (posts w) (login_request c u p)) = Replied r ->
  status_code r = 400%Z ->
  body_error false "error" (payload r) = Some e ->
  exists w',
    login u p c w = Raised e c w' /\
    requests (trace w') = requests (trace w) ++ [login_request c u p].
Proof.
  intros Hsrv H400 Hbody.
  rewrite (login_not_200 c w u p r Hsrv) by lia.
  destruct (decide (status_code r = 400%Z)); [|contradiction].
  rewrite Hbody. eexists. split; [reflexivity|].
  simpl. rewrite !requests_app. simpl. rewrite app_nil_r. reflexivity.
Qed.

(** X11: a transport error other than a connection error is not caught by
    the constructor: it reaches the caller and the process goes on.  The
    object that is left has no [_session_start_time], so that every
    [execute] on it raises [AttributeError] without sending anything, and
    its [__del__] does nothing. *)
Theorem init_other_error_leaves_unusable (u p : string) (w : World)
    (e : Exn) :
  snd (server (posts w) (login_request prepared u p)) = Failed e ->
  e <> ConnectionError ->
  exists w1,
    init u p w = Raised e prepared w1 /\
    (forall fuel url data hdrs json_format w2,
       execute (S fuel) url data hdrs json_format prepared w2
       = Raised AttributeError prepared w2) /\
    (forall fuel w2, del fuel prepared w2 = Done tt prepared w2).
Proof.
  intros Hsrv Hne. rewrite init_login.
  rewrite (login_failed prepared w u p e Hsrv Hne).
  eexists. split; [reflexivity|]. split.
  - intros. reflexivity.
  - intros. apply del_logged_out. reflexivity.
Qed.

(** The requests of a logout that is answered. *)
Lemma logout_replied_requests (k fuel : nat) (c : Client) (w : World)
    (r : Response) :
  is_Some (_session_start_time c) ->
  expired c w = false ->
  (k < fuel)%nat ->
  fails_then_replies k (api_request c "auth/logout" None None) r w ->
  exists c' w',
    came_back (logout fuel c w) = Some (c', w') /\
    _is_logged_in c'
      = (if decide (status_code r = 204%Z) then false
         else _is_logged_in c) /\
    requests (trace w')
      = requests (trace w)
        ++ replicate (S k) (api_request c "auth/logout" None None).
Proof.
  intros Hstart Hexp Hfuel Hsrv.
  rewrite (logout_replied k fuel c w r Hstart Hexp Hfuel Hsrv).
  assert (Hreq : requests
            (trace (answered_world k "auth/logout"
                      (api_request c "auth/logout" None None) r
                      (log (Echo msg_logout (Some red)) w)))
          = requests (trace w)
            ++ replicate (S k) (api_request c "auth/logout" None None)).
  { rewrite trace_answered_world, requests_app.
    rewrite (replicate_S_end k). simpl trace.
    rewrite requests_app. simpl (requests [_]). rewrite app_nil_r.
    f_equal.
    change (requests (Sleep (EXECUTION_TIMEOUT cfg) :: ?t))
      with (requests t).
    rewrite requests_app, requests_failed_turns. reflexivity. }
  destruct (decide (status_code r = 200%Z)) as [E|E].
  - destruct (decide (status_code r = 204%Z)); [lia|].
    destruct (payload r); do 2 eexists;
      (split; [reflexivity|]); (split; [reflexivity|exact Hreq]).
  - destruct (decide (status_code r = 204%Z));
      do 2 eexists; (split; [reflexivity|]);
      (split; [reflexivity|exact Hreq]).
Qed.

(** X12: [__del__] logs out once.  When the logout of a logged-in
    connector is answered with 204, [__del__] returns with the connector
    logged out, and from then on [__del__] returns at once, without a
    request and without a change, wherever it is called. *)
Theorem del_twice_logs_out_once (k fuel : nat) (c : Client) (w : World)
    (r : Response) :
  _is_logged_in c = true ->
  is_Some (_session_start_time c) ->
  expired c w = false ->
  (k < fuel)%nat ->
  fails_then_replies k (api_request c "auth/logout" None None) r w ->
  status_code r = 204%Z ->
  exists c' w',
    del fuel c w = Done tt c' w' /\
    _is_logged_in c' = false /\
    requests (trace w')
      = requests (trace w)
        ++ replicate (S k) (api_request c "auth/logout" None None) /\
    forall fuel' w'', del fuel' c' w'' = Done tt c' w''.
Proof.
  intros Hin Hstart Hexp Hfuel Hsrv H204.
  rewrite (del_logged_in fuel c w Hin).
  destruct (logout_replied_requests k fuel c w r Hstart Hexp Hfuel Hsrv)
    as (c' & w' & Hrun & Hflag & Hreq).
  rewrite (logout_replied k fuel c w r Hstart Hexp Hfuel Hsrv) in *.
  destruct (decide (status_code r = 200%Z)); [lia|].
  destruct (decide (status_code r = 204%Z)); [|contradiction].
  simpl in Hrun. injection Hrun as <- <-.
  do 2 eexists. split; [reflexivity|]. split; [reflexivity|].
  split; [exact Hreq|].
  intros. apply del_logged_out. reflexivity.
Qed.

(** X13: a construction that raised at line 124 leaves an object that is
    marked as logged in and has no bearer token.  Its [__del__] therefore
    does log out, and the logout request goes out without an
    [authorization] header. *)
Theorem del_after_failed_construction (u p : string) (w : World)
    (r : Response) (e : Exn) :
  library_headers !! "authorization" = None ->
  snd (server (posts w) (login_request prepared u p)) = Replied r ->
  status_code r = 200%Z ->
  body_error true "access_token" (payload r) = Some e ->
  exists c1 w1,
    init u p w = Raised e c1 w1 /\
    _is_logged_in c1 = true /\
    req_headers (api_request c1 "auth/logout" None None) !! "authorization"
      = None /\
    forall k fuel r' w2,
      expired c1 w2 = false ->
      (k < fuel)%nat ->
      fails_then_replies k (api_request c1 "auth/logout" None None) r' w2 ->
      exists c2 w3,
        came_back (del fuel c1 w2) = Some (c2, w3) /\
        requests (trace w3)
          = requests (trace w2)
            ++ replicate (S k) (api_request c1 "auth/logout" None None).
Proof.
  intros Hlib Hsrv H200 Hbody. rewrite init_login.
  destruct (login_200_bad_body prepared w u p r e Hsrv H200 Hbody)
    as (w1 & Hrun & _).
  rewrite Hrun. do 2 eexists. split; [reflexivity|].
  split; [reflexivity|]. split.
  - exact (bearer_token_prepared Hlib).
  - intros k fuel r' w2 Hexp Hfuel Hsrv'.
    rewrite del_logged_in by reflexivity.
    assert (Hstart : is_Some
              (_session_start_time
                 (marked_logged_in
                    (now w
                     + fst (server (posts w) (login_request prepared u p)))%Q
                    prepared)))
      by (eexists; reflexivity).
    destruct (logout_replied_requests k fuel _ w2 r' Hstart Hexp Hfuel
                Hsrv')
      as (c2 & w3 & Hback & _ & Hreq).
    exists c2, w3. split; assumption.
Qed.

End Properties.


(** ** The properties at work in the scenario *)

Module ScenarioFacts.
Import Scenario.

Lemma execute_expired_sends_nothing_witness :
  expired config (fst connected) sixteen_minutes_later = true /\
  exists w',
    execute config server 5 "students/list" None None true
            (fst connected) sixteen_minutes_later
      = OutOfFuel (fst connected) w' /\
    trace w' = trace sixteen_minutes_later ++ renewal_round 5 /\
    requests (trace w') = requests (trace sixteen_minutes_later) /\
    posts w' = posts sixteen_minutes_later /\
    now w' = now sixteen_minutes_later.
Proof.
  split; [reflexivity|].
  apply (execute_expired_sends_nothing config server 5 "students/list"
           None None true (fst connected) sixteen_minutes_later).
  reflexivity.
Defined.


(** C2 at a login that is answered with the token [abc]. *)
Lemma login_ok_attaches_token_witness :
  snd (server (posts boot)
         (login_request config (prepared config ∅) "user" "secret"))
    = Replied token_reply /\
  status_code token_reply = 200%Z /\
  payload token_reply = Some (JDict [("access_token", JStr "abc")]) /\
  assoc "access_token" [("access_token", JStr "abc")] = Some (JStr "abc") /\
  exists c' w',
    login config server "user" "secret" (prepared config ∅) boot
      = Done tt c' w' /\
    _is_logged_in c' = true /\
    bearer_token c' = Some "Bearer abc" /\
    _session_start_time c' = Some (0 + 2)%Q.
Proof.
  repeat (split; [reflexivity|]).
  destruct (login_ok_attaches_token config server (prepared config ∅) boot
              "user" "secret" token_reply
              [("access_token", JStr "abc")] "abc"
              eq_refl eq_refl eq_refl eq_refl)
    as (c' & w' & Hrun & Hin & Htok & _ & _ & Hstart & _).
  exists c', w'. repeat split; assumption.
Defined.

(** C2 as stated fails where the body of a 200 carries no token: the
    connector is marked as logged in and no bearer token is attached. *)
Lemma login_200_empty_object_attaches_nothing :
  exists c' w',
    init config (scripted [(2%Q, Replied empty_object)]) ∅ "user" "secret"
         boot
      = Raised TypeError c' w' /\
    _status c' = Some 200%Z /\
    _is_logged_in c' = true /\
    bearer_token c' = None.
Proof. do 2 eexists. repeat split. Qed.

(** C10 at the same login. *)
Lemma login_without_token_raises_witness :
  snd (scripted [(2%Q, Replied empty_object)] (posts boot)
         (login_request config (prepared config ∅) "user" "secret"))
    = Replied empty_object /\
  status_code empty_object = 200%Z /\
  payload empty_object = Some (JDict []) /\
  assoc "access_token" [] = None /\
  exists c' w',
    login config (scripted [(2%Q, Replied empty_object)]) "user" "secret"
          (prepared config ∅) boot
      = Raised TypeError c' w' /\
    _is_logged_in c' = true /\
    _session_start_time c' = Some (0 + 2)%Q /\
    _status c' = Some 200%Z /\
    _session c' = _session (prepared config ∅).
Proof.
  repeat (split; [reflexivity|]).
  apply (login_without_token_raises config
           (scripted [(2%Q, Replied empty_object)]) (prepared config ∅) boot
           "user" "secret" empty_object []); reflexivity.
Defined.

(** A login that is refused with 400 and an OAuth error object ends the
    process. *)
Lemma login_refused_terminates_witness :
  refused (snd (scripted [(2%Q, Replied invalid_grant)] (posts boot)
                  (login_request config (prepared config ∅)
                     "user" "secret"))) /\
  exists c' w',
    login config (scripted [(2%Q, Replied invalid_grant)]) "user" "secret"
          (prepared config ∅) boot
      = Terminated c' w' /\
    c' = prepared config ∅ /\
    (_is_logged_in (prepared config ∅) = false -> _is_logged_in c' = false).
Proof.
  assert (Href : refused
            (snd (scripted [(2%Q, Replied invalid_grant)] (posts boot)
                    (login_request config (prepared config ∅)
                       "user" "secret")))).
  { split; [discriminate|]. intros _. eexists. reflexivity. }
  split; [exact Href|].
  exact (login_refused_terminates config
           (scripted [(2%Q, Replied invalid_grant)]) (prepared config ∅)
           boot "user" "secret" Href).
Defined.

(** C6, where the code misses it: at a 400 whose body is not JSON the
    branch of lines 128-134 does not get to its [echo] with [force_exit]:
    line 131 raises the error of [response.json()] to the caller of the
    constructor and the process goes on, the connector not logged in. *)
Lemma login_400_page_raises :
  exists c' w',
    init config (scripted [(2%Q, Replied bad_request_page)]) ∅
         "user" "secret" boot
      = Raised ValueError c' w' /\
    _is_logged_in c' = false.
Proof. do 2 eexists. repeat split. Qed.


(** The connector of the scenario is within its age right after the login,
    and the listing server refuses one connection before it answers. *)
Lemma connected_started : is_Some (_session_start_time (fst connected)).
Proof. eexists. reflexivity. Defined.

Lemma listing_server_script (hdrs : option (gmap string string)) :
  fails_then_replies listing_server 1
    (api_request config (fst connected) "students/list" None hdrs)
    students (snd connected).
Proof.
  split; [|reflexivity].
  intros [|i] Hi; [reflexivity | exfalso; lia].
Defined.

Lemma server_script :
  fails_then_replies server 1
    (api_request config (fst connected) "auth/logout" None None)
    no_content (snd connected).
Proof.
  split; [|reflexivity].
  intros [|i] Hi; [reflexivity | exfalso; lia].
Defined.

(** C3 at a call that is answered with a list of students. *)
Lemma execute_return_value_witness :
  is_Some (_session_start_time (fst connected)) /\
  expired config (fst connected) (snd connected) = false /\
  (1 < 2)%nat /\
  fails_then_replies listing_server 1
    (api_request config (fst connected) "students/list" None None)
    students (snd connected) /\
  exists c' w',
    execute config listing_server 2 "students/list" None None true
            (fst connected) (snd connected)
      = Done (RJson (JList [JStr "Ada"; JStr "Olena"])) c' w' /\
    _status c' = Some 200%Z.
Proof.
  split; [exact connected_started|]. split; [reflexivity|].
  split; [lia|]. split; [exact (listing_server_script None)|].
  destruct (execute_return_value config listing_server 1 2
              (fst connected) (snd connected) "students/list" None None
              true students connected_started eq_refl
              (Nat.lt_succ_diag_r 1) (listing_server_script None))
    as (c' & w' & _ & Hst & Hjson & _).
  exists c', w'. split; [|exact Hst].
  apply Hjson; reflexivity.
Defined.

(** C3 as stated fails at a 200 whose body is not JSON: with [json_format]
    set the call raises the error of [response.json()] and returns
    nothing. *)
Lemma execute_200_page_raises :
  exists c w c' w',
    init config page_server ∅ "user" "secret" boot = Done tt c w /\
    execute config page_server 1 "students/list" None None true c w
      = Raised ValueError c' w' /\
    _status c' = Some 200%Z.
Proof. do 4 eexists. repeat split. Qed.

(** C4 at the same call: one refused connection, then the answer, which
    took three seconds. *)
Lemma execute_retries_until_replied_witness :
  is_Some (_session_start_time (fst connected)) /\
  expired config (fst connected) (snd connected) = false /\
  (1 < 2)%nat /\
  fails_then_replies listing_server 1
    (api_request config (fst connected) "students/list" None None)
    students (snd connected) /\
  exists c' w',
    came_back (execute config listing_server 2 "students/list" None None
                 true (fst connected) (snd connected)) = Some (c', w') /\
    posts w' = (posts (snd connected) + 1 + 1)%nat /\
    (_execution_time c' == 3)%Q.
Proof.
  split; [exact connected_started|]. split; [reflexivity|].
  split; [lia|]. split; [exact (listing_server_script None)|].
  destruct (execute_retries_until_replied config listing_server 1 2
              (fst connected) (snd connected) "students/list" None None
              true students connected_started eq_refl
              (Nat.lt_succ_diag_r 1) (listing_server_script None))
    as (c' & w' & Hrun & Hposts & _ & Htime).
  exists c', w'. repeat split; assumption.
Defined.

(** C5 at a call with headers of the caller: the request that is posted
    has them as its JSON document and not among its headers. *)
Lemma execute_posts_headers_as_json_witness :
  is_Some (_session_start_time (fst connected)) /\
  expired config (fst connected) (snd connected) = false /\
  (1 < 2)%nat /\
  fails_then_replies listing_server 1
    (api_request config (fst connected) "students/list" None
       (Some caller_headers))
    students (snd connected) /\
  exists c' w' req,
    came_back (execute config listing_server 2 "students/list" None
                 (Some caller_headers) true (fst connected) (snd connected))
      = Some (c', w') /\
    last (requests (trace w')) = Some req /\
    req_url req = "https://edbo.example/data/EDEBOWebApi/api/students/list" /\
    req_json req = Some caller_headers /\
    req_headers req !! "X-Requested-With" = None /\
    req_headers req !! "authorization" = Some "Bearer abc".
Proof.
  split; [exact connected_started|]. split; [reflexivity|].
  split; [lia|]. split; [exact (listing_server_script (Some caller_headers))|].
  destruct (execute_posts_headers_as_json config listing_server 1 2
              (fst connected) (snd connected) "students/list" None
              (Some caller_headers) true students connected_started eq_refl
              (Nat.lt_succ_diag_r 1)
              (listing_server_script (Some caller_headers)))
    as (c' & w' & req & Hrun & Htrace & Hreq).
  exists c', w', req. split; [exact Hrun|].
  rewrite Htrace, Hreq. vm_compute. repeat split.
Defined.


(** C9 at that logout, and at a logout that is not answered: there the
    transport raises an error that is not a connection error, the logout
    raises it, and the connector is still marked as logged in. *)
Lemma logout_clears_exactly_on_204_witness :
  is_Some (_session_start_time (fst connected)) /\
  expired config (fst connected) (snd connected) = false /\
  (1 < 2)%nat /\
  fails_then_replies server 1
    (api_request config (fst connected) "auth/logout" None None)
    no_content (snd connected) /\
  _is_logged_in (fst connected) = true /\
  (exists c' w',
     came_back (logout config server 2 (fst connected) (snd connected))
       = Some (c', w') /\
     _status c' = Some 204%Z /\
     _is_logged_in c' = false) /\
  (exists c' w',
     logout config broken_server 2 (fst connected) (snd connected)
       = Raised RequestException c' w' /\
     _is_logged_in c' = true).
Proof.
  split; [exact connected_started|]. split; [reflexivity|].
  split; [lia|]. split; [exact server_script|]. split; [reflexivity|].
  split.
  - destruct (proj1 (logout_clears_exactly_on_204 config server 2
                       (fst connected) (snd connected))
                1%nat no_content connected_started eq_refl
                (Nat.lt_succ_diag_r 1) server_script)
      as (c' & w' & Hrun & Hst & H204 & _).
    exists c', w'. split; [exact Hrun|]. split; [exact Hst|].
    apply H204. reflexivity.
  - destruct (logout_clears_exactly_on_204 config broken_server 2
                (fst connected) (snd connected)) as (_ & _ & Hflag).
    assert (E : exists c' w',
              logout config broken_server 2 (fst connected) (snd connected)
              = Raised RequestException c' w')
      by (do 2 eexists; reflexivity).
    destruct E as (c' & w' & E). exists c', w'. split; [exact E|].
    rewrite E in Hflag. rewrite Hflag. reflexivity.
Defined.

(** C8 at the same logout, which took three seconds. *)
Lemma last_status_and_time_witness :
  is_Some (_session_start_time (fst connected)) /\
  expired config (fst connected) (snd connected) = false /\
  (1 < 2)%nat /\
  fails_then_replies server 1
    (api_request config (fst connected) "auth/logout" None None)
    no_content (snd connected) /\
  exists c' w',
    came_back (logout config server 2 (fst connected) (snd connected))
      = Some (c', w') /\
    _status c' = Some 204%Z /\
    (_execution_time c' == 3)%Q.
Proof.
  split; [exact connected_started|]. split; [reflexivity|].
  split; [lia|]. split; [exact server_script|].
  exact (proj1 (proj2 (last_status_and_time config server 2
                         (fst connected) (snd connected)))
           1%nat no_content connected_started eq_refl
           (Nat.lt_succ_diag_r 1) server_script).
Defined.

(** C8 as stated fails at the login: the request of the login took two
    seconds and was answered with 200; the status is stored and the stored
    time is the initial 0. *)
Lemma login_time_not_stored :
  init config server ∅ "user" "secret" boot
    = Done tt (fst connected) (snd connected) /\
  fst (server 0 (login_request config (prepared config ∅) "user" "secret"))
    = 2%Q /\
  _status (fst connected) = Some 200%Z /\
  _execution_time (fst connected) = 0%Q /\
  ~ (_execution_time (fst connected) == 2)%Q.
Proof. repeat split. discriminate. Qed.

(** C7 on a fresh [requests.Session()] without an [authorization]
    header. *)
Lemma bearer_token_stays_witness :
  (∅ : gmap string string) !! "authorization" = None /\
  (forall c w,
     reachable config server ∅ c w ->
     is_Some (bearer_token c) -> is_Some (_session_start_time c)) /\
  bearer_token (fst torn_down) = bearer_token (fst connected).
Proof.
  assert (Hlib : (∅ : gmap string string) !! "authorization" = None)
    by reflexivity.
  split; [exact Hlib|].
  destruct (bearer_token_stays config server ∅ Hlib)
    as (Hinv & _ & Hout & _).
  split; [exact Hinv|].
  exact (Hout 2%nat (fst connected) (snd connected)).
Defined.

(** C7 as stated fails after a successful logout: the connector of the
    scenario is logged out by [__del__], with status 204, and the bearer
    token is still in the headers of its session. *)
Lemma logged_out_with_token :
  reachable config server ∅ (fst torn_down) (snd torn_down) /\
  _status (fst torn_down) = Some 204%Z /\
  _is_logged_in (fst torn_down) = false /\
  bearer_token (fst torn_down) = Some "Bearer abc".
Proof.
  split; [|vm_compute; repeat split].
  apply (reach_del config server ∅ 2 (fst connected) (snd connected)).
  - apply (reach_init config server ∅ "user" "secret" boot). reflexivity.
  - reflexivity.
Qed.

End ScenarioFacts.

(** ** Further properties at work in the scenario *)

Module ScenarioMore.
Import Scenario.

Lemma connected_by_init :
  init config server ∅ "user" "secret" boot
  = Done tt (fst connected) (snd connected).
Proof. reflexivity. Defined.

Lemma connected_fresh :
  expired config (fst connected) (snd connected) = false.
Proof. reflexivity. Defined.

Lemma execute_other_error_propagates_witness :
  is_Some (_session_start_time (fst connected)) /\
  expired config (fst connected) (snd connected) = false /\
  (1 < 2)%nat /\
  (forall i, (i < 1)%nat ->
     snd (broken_server (posts (snd connected) + i)
            (api_request config (fst connected) "students/list" None None))
     = Failed ConnectionError) /\
  snd (broken_server (posts (snd connected) + 1)
         (api_request config (fst connected) "students/list" None None))
    = Failed RequestException /\
  RequestException <> ConnectionError /\
  exists w',
    execute config broken_server 2 "students/list" None None true
            (fst connected) (snd connected)
      = Raised RequestException (fst connected) w' /\
    posts w' = (posts (snd connected) + 1 + 1)%nat /\
    requests (trace w')
      = requests (trace (snd connected))
        ++ replicate 2
             (api_request config (fst connected) "students/list" None None).
Proof.
  assert (Hfail : forall i, (i < 1)%nat ->
            snd (broken_server (posts (snd connected) + i)
                   (api_request config (fst connected) "students/list"
                      None None))
            = Failed ConnectionError).
  { intros [|i] Hi; [reflexivity | exfalso; lia]. }
  assert (Hne : RequestException <> ConnectionError) by discriminate.
  split; [exact ScenarioFacts.connected_started|].
  split; [reflexivity|]. split; [lia|]. split; [exact Hfail|].
  split; [reflexivity|]. split; [exact Hne|].
  exact (execute_other_error_propagates config broken_server 1 2
           (fst connected) (snd connected) "students/list" None None true
           RequestException ScenarioFacts.connected_started connected_fresh
           (Nat.lt_succ_diag_r 1) Hfail eq_refl Hne).
Defined.

Lemma execute_retries_without_end_witness :
  is_Some (_session_start_time (fst connected)) /\
  expired config (fst connected) (snd connected) = false /\
  (forall i,
     snd (dead_server (posts (snd connected) + i)
            (api_request config (fst connected) "students/list" None None))
     = Failed ConnectionError) /\
  exists w',
    execute config dead_server 7 "students/list" None None true
            (fst connected) (snd connected)
      = OutOfFuel (fst connected) w' /\
    posts w' = (posts (snd connected) + 7)%nat /\
    requests (trace w')
      = requests (trace (snd connected))
        ++ replicate 7
             (api_request config (fst connected) "students/list" None None).
Proof.
  assert (Hfail : forall i,
            snd (dead_server (posts (snd connected) + i)
                   (api_request config (fst connected) "students/list"
                      None None))
            = Failed ConnectionError)
    by (intros i; reflexivity).
  split; [exact ScenarioFacts.connected_started|].
  split; [reflexivity|]. split; [exact Hfail|].
  exact (execute_retries_without_end config dead_server 7
           (fst connected) (snd connected) "students/list" None None true
           ScenarioFacts.connected_started connected_fresh Hfail).
Defined.

Lemma expired_from_next_whole_second_witness :
  (0 <= RELOGIN_AFTER config)%Z /\
  _session_start_time (fst connected) = Some (0 + 2)%Q /\
  (expired config (fst connected) sixteen_minutes_later = true
   <-> (inject_Z (RELOGIN_AFTER config + 1)
        <= now sixteen_minutes_later - (0 + 2))%Q).
Proof.
  assert (Hpos : (0 <= RELOGIN_AFTER config)%Z) by (simpl; lia).
  split; [exact Hpos|]. split; [reflexivity|].
  exact (expired_from_next_whole_second config (fst connected)
           sixteen_minutes_later (0 + 2)%Q Hpos eq_refl).
Defined.

Lemma del_expired_sends_nothing_witness :
  _is_logged_in (fst connected) = true /\
  expired config (fst connected) sixteen_minutes_later = true /\
  exists w',
    final (del config server 5 (fst connected) sixteen_minutes_later)
      = (fst connected, w') /\
    (forall x c'' w'',
       del config server 5 (fst connected) sixteen_minutes_later
       <> Done x c'' w'') /\
    requests (trace w') = requests (trace sixteen_minutes_later) /\
    posts w' = posts sixteen_minutes_later.
Proof.
  split; [reflexivity|]. split; [reflexivity|].
  exact (del_expired_sends_nothing config server 5 (fst connected)
           sixteen_minutes_later eq_refl eq_refl).
Defined.

Lemma expired_for_good_witness :
  expired config (fst connected) sixteen_minutes_later = true /\
  later config server (fst connected) sixteen_minutes_later
        (fst after_failed_call) a_minute_on /\
  fst after_failed_call = fst connected /\
  expired config (fst after_failed_call) a_minute_on = true /\
  posts a_minute_on = posts sixteen_minutes_later /\
  requests (trace a_minute_on) = requests (trace sixteen_minutes_later).
Proof.
  assert (Hlater :
            later config server (fst connected) sixteen_minutes_later
                  (fst after_failed_call) a_minute_on).
  { apply later_wait; [|discriminate].
    apply (later_execute config server (fst connected)
             sixteen_minutes_later 5 "students/list" None None true
             (fst connected) sixteen_minutes_later).
    - apply later_now.
    - reflexivity. }
  split; [reflexivity|]. split; [exact Hlater|].
  exact (expired_for_good config server (fst connected)
           sixteen_minutes_later (fst after_failed_call) a_minute_on
           eq_refl Hlater).
Defined.


Lemma constructed_requests_carry_identity_witness :
  init config server ∅ "user" "secret" boot
    = Done tt (fst connected) (snd connected) /\
  req_headers (api_request config (fst connected) "students/list" None None)
    !! "User-Agent" = Some "agent".
Proof.
  split; [reflexivity|].
  exact (proj1 (proj2 (proj2
           (constructed_requests_carry_identity config server ∅
              "user" "secret" boot (fst connected) (snd connected)
              "students/list" None None connected_by_init)))).
Defined.

Lemma login_200_bad_body_raises_witness :
  snd (page_server (posts (snd connected))
         (login_request config (fst connected) "user" "secret"))
    = Replied error_page /\
  status_code error_page = 200%Z /\
  body_error true "access_token" (payload error_page) = Some ValueError /\
  exists w',
    login config page_server "user" "secret" (fst connected)
          (snd connected)
    = Raised ValueError
        (marked_logged_in
           (now (snd connected)
            + fst (page_server (posts (snd connected))
                     (login_request config (fst connected)
                        "user" "secret")))%Q
           (fst connected))
        w' /\
    requests (trace w')
      = requests (trace (snd connected))
        ++ [login_request config (fst connected) "user" "secret"].
Proof.
  repeat (split; [reflexivity|]).
  exact (login_200_bad_body_raises config page_server (fst connected)
           (snd connected) "user" "secret" error_page ValueError
           eq_refl eq_refl eq_refl).
Defined.

Lemma login_400_bad_body_raises_witness :
  snd (scripted [(2%Q, Replied bad_request_page)] (posts boot)
         (login_request config (prepared config ∅) "user" "secret"))
    = Replied bad_request_page /\
  status_code bad_request_page = 400%Z /\
  body_error false "error" (payload bad_request_page) = Some ValueError /\
  exists w',
    login config (scripted [(2%Q, Replied bad_request_page)])
          "user" "secret" (prepared config ∅) boot
    = Raised ValueError (prepared config ∅) w' /\
    requests (trace w')
      = requests (trace boot)
        ++ [login_request config (prepared config ∅) "user" "secret"].
Proof.
  repeat (split; [reflexivity|]).
  exact (login_400_bad_body_raises config
           (scripted [(2%Q, Replied bad_request_page)]) (prepared config ∅)
           boot "user" "secret" bad_request_page ValueError
           eq_refl eq_refl eq_refl).
Defined.

Lemma init_other_error_leaves_unusable_witness :
  snd (scripted [(2%Q, Failed RequestException)] (posts boot)
         (login_request config (prepared config ∅) "user" "secret"))
    = Failed RequestException /\
  RequestException <> ConnectionError /\
  exists w1,
    init config (scripted [(2%Q, Failed RequestException)]) ∅
         "user" "secret" boot
      = Raised RequestException (prepared config ∅) w1 /\
    execute config (scripted [(2%Q, Failed RequestException)]) 1
            "students/list" None None true (prepared config ∅) w1
      = Raised AttributeError (prepared config ∅) w1.
Proof.
  assert (Hne : RequestException <> ConnectionError) by discriminate.
  split; [reflexivity|]. split; [exact Hne|].
  destruct (init_other_error_leaves_unusable config
              (scripted [(2%Q, Failed RequestException)]) ∅
              "user" "secret" boot RequestException eq_refl Hne)
    as (w1 & Hrun & Hexec & _).
  exists w1. split; [exact Hrun|]. apply Hexec.
Defined.

Lemma del_twice_logs_out_once_witness :
  _is_logged_in (fst connected) = true /\
  is_Some (_session_start_time (fst connected)) /\
  expired config (fst connected) (snd connected) = false /\
  (1 < 2)%nat /\
  fails_then_replies server 1
    (api_request config (fst connected) "auth/logout" None None)
    no_content (snd connected) /\
  status_code no_content = 204%Z /\
  exists c' w',
    del config server 2 (fst connected) (snd connected) = Done tt c' w' /\
    _is_logged_in c' = false /\
    requests (trace w')
      = requests (trace (snd connected))
        ++ replicate 2
             (api_request config (fst connected) "auth/logout" None None) /\
    forall fuel' w'', del config server fuel' c' w'' = Done tt c' w''.
Proof.
  split; [reflexivity|]. split; [exact ScenarioFacts.connected_started|].
  split; [reflexivity|]. split; [lia|].
  split; [exact ScenarioFacts.server_script|]. split; [reflexivity|].
  exact (del_twice_logs_out_once config server 1 2 (fst connected)
           (snd connected) no_content eq_refl
           ScenarioFacts.connected_started connected_fresh
           (Nat.lt_succ_diag_r 1) ScenarioFacts.server_script eq_refl).
Defined.

Lemma del_after_failed_construction_witness :
  (∅ : gmap string string) !! "authorization" = None /\
  snd (careless_server (posts boot)
         (login_request config (prepared config ∅) "user" "secret"))
    = Replied empty_object /\
  status_code empty_object = 200%Z /\
  body_error true "access_token" (payload empty_object) = Some TypeError /\
  exists c1 w1,
    init config careless_server ∅ "user" "secret" boot
      = Raised TypeError c1 w1 /\
    _is_logged_in c1 = true /\
    req_headers (api_request config c1 "auth/logout" None None)
      !! "authorization" = None.
Proof.
  assert (Hlib : (∅ : gmap string string) !! "authorization" = None)
    by reflexivity.
  split; [exact Hlib|]. repeat (split; [reflexivity|]).
  destruct (del_after_failed_construction config careless_server ∅
              "user" "secret" boot empty_object TypeError
              Hlib eq_refl eq_refl eq_refl)
    as (c1 & w1 & Hrun & Hin & Hhdr & _).
  exists c1, w1. repeat split; assumption.
Defined.

End ScenarioMore.
